(** * synapse/config/database.py: database connection configuration

    A shallow embedding of [DatabaseConnectionConfig] and [DatabaseConfig]
    (synapse/config/database.py) and the properties of their specification.

    Python objects are dynamically typed: configuration values are embedded
    as the type [value], dictionaries as finite maps with string keys, and a
    raised exception as the left injection of a sum.  Calls into collaborators
    that are not part of the module (the adbapi connection pool, the driver
    module of an engine, the helpers of the [Config] base class) are
    parameters of the development. *)

From Stdlib Require Import ZArith Ascii String.
From stdpp Require Import base option list strings gmap.

Set Warnings "-register-all".

(** ** Python values *)

(** The two engines of synapse.storage.engines. *)
Inductive engine := Sqlite3Engine | PostgresEngine.

(** The name of the driver module an engine wraps. *)
Definition engine_module (e : engine) : string :=
  match e with
  | Sqlite3Engine => "sqlite3"
  | PostgresEngine => "psycopg2"
  end.

(** Values a configuration can hold.  [VMethod e] is the bound method
    [on_new_connection] of engine [e]. *)
Inductive value :=
| VNone
| VBool (b : bool)
| VInt (z : Z)
| VStr (s : string)
| VMethod (e : engine)
| VList (l : list value)
| VDict (d : gmap string value).

(** Exceptions, by class.  [ConfigError] and [RuntimeError] carry the value
    their message is formatted from; [DriverError] is whatever an external
    collaborator raises. *)
Inductive exn :=
| KeyError (k : string)
| TypeError
| AttributeError
| ConfigError (culprit : value)
| RuntimeError (culprit : value)
| UnsupportedBackendError (culprit : value)
| DriverError (code : nat).

(** A computation that returns a value of [A] or raises. *)
Definition result (A : Type) : Type := exn + A.

Definition ok {A} (a : A) : result A := inr a.
Definition raise {A} (e : exn) : result A := inl e.

#[export] Instance result_ret : MRet result := fun A a => inr a.
#[export] Instance result_bind : MBind result := fun A B k m =>
  match m with
  | inl e => inl e
  | inr a => k a
  end.

(** [v == s] for a string literal [s]: only a string can equal a string. *)
Definition py_eq_str (v : value) (s : string) : bool :=
  match v with
  | VStr x => String.eqb x s
  | _ => false
  end.

(** [v is None]. *)
Definition is_None (v : value) : bool :=
  match v with
  | VNone => true
  | _ => false
  end.

(** Truth value of an object, as [not v] tests it. *)
Definition truthy (v : value) : bool :=
  match v with
  | VNone => false
  | VBool b => b
  | VInt z => negb (z =? 0)%Z
  | VStr s => negb (String.eqb s EmptyString)
  | VMethod _ => true
  | VList l => match l with [] => false | _ => true end
  | VDict d => negb (bool_decide (d = ∅))
  end.

(** ** Dictionary operations

    Each operation is the method of [dict]; applied to an object of another
    type the attribute lookup or the subscription fails. *)

(** [o[k]] *)
Definition getitem (o : value) (k : string) : result value :=
  match o with
  | VDict d =>
      match d !! k with
      | Some v => ok v
      | None => raise (KeyError k)
      end
  | _ => raise TypeError
  end.

(** [o.get(k, dflt)] *)
Definition get (o : value) (k : string) (dflt : value) : result value :=
  match o with
  | VDict d => ok (default dflt (d !! k))
  | _ => raise AttributeError
  end.

(** [o[k] = v]; the updated object is returned. *)
Definition setitem (o : value) (k : string) (v : value) : result value :=
  match o with
  | VDict d => ok (VDict (<[k := v]> d))
  | _ => raise TypeError
  end.

(** [o.setdefault(k, dflt)]: the value under [k] after the call, and the
    updated object. *)
Definition setdefault (o : value) (k : string) (dflt : value)
  : result (value * value) :=
  match o with
  | VDict d =>
      match d !! k with
      | Some v => ok (v, o)
      | None => ok (dflt, VDict (<[k := dflt]> d))
      end
  | _ => raise AttributeError
  end.

(** [o.update(other)]: the entries of [other] replace those of [o]. *)
Definition update (o : value) (other : gmap string value) : result value :=
  match o with
  | VDict d => ok (VDict (other ∪ d))
  | _ => raise AttributeError
  end.

(** [**o] in a call: [o] has to be a mapping. *)
Definition kwargs (o : value) : result (gmap string value) :=
  match o with
  | VDict d => ok d
  | _ => raise TypeError
  end.

(** ** The forced pooling parameters of sqlite3 *)

(** [{"cp_min": 1, "cp_max": 1, "check_same_thread": False}] *)
Definition sqlite3_forced : gmap string value :=
  {[ "cp_min" := VInt 1; "cp_max" := VInt 1;
     "check_same_thread" := VBool false ]}.

(** [db_config.setdefault("args", {}).update(sqlite3_forced)], the statement
    that [DatabaseConnectionConfig.__init__] (lines 45-47) and
    [DatabaseConfig.read_config] (lines 100-102) both run for sqlite3.  The
    dictionary [setdefault] returns is the one stored in [db_config], so the
    update is seen through [db_config]: it is written back under "args". *)
Definition force_single_connection (db_config : value) : result value :=
  '(a, db_config) ← setdefault db_config "args" (VDict ∅);
  a ← update a sqlite3_forced;
  setitem db_config "args" a.

(** ** Engine registry *)

(** Modelled from the spec: [create_engine] of synapse.storage.engines, which
    is not part of the module.  Section 4.1: a pure lookup of the backend
    identifier in the closed set of supported engines, failing with
    UnsupportedBackendError on any other identifier. *)
Definition create_engine (db_config : value) : result engine :=
  n ← getitem db_config "name";
  if py_eq_str n "sqlite3" then ok Sqlite3Engine
  else if py_eq_str n "psycopg2" then ok PostgresEngine
  else raise (UnsupportedBackendError n).

(** ** DatabaseConnectionConfig *)

(** An adbapi.ConnectionPool call: the driver name, the reactor (a handle,
    told apart by its number) and the other keyword arguments. *)
Record pool_call := PoolCall {
  dbapiName : value;
  cp_reactor : nat;
  connkw : gmap string value
}.

(** A pool object: [pool_id] is its identity (the position of the call that
    built it in the history of external calls). *)
Record Pool := MkPool {
  pool_id : nat;
  pool_built_by : pool_call
}.

(** A raw connection of a driver module, likewise. *)
Record Connection := MkConnection {
  conn_id : nat;
  conn_module : string;
  conn_params : gmap string value
}.

Record DatabaseConnectionConfig := MkDatabaseConnectionConfig {
  name : string;
  config : value;
  data_stores : list string;
  engine_of : engine;
  _pool : option Pool
}.

(** [DatabaseConnectionConfig.__init__(self, name, db_config, data_stores)]:
    the object built, or the exception raised. *)
Definition __init__ (name : string) (db_config : value)
    (data_stores : list string) : result DatabaseConnectionConfig :=
  n ← getitem db_config "name";
  if negb (py_eq_str n "sqlite3" || py_eq_str n "psycopg2")
  then raise (ConfigError n)
  else
    n ← getitem db_config "name";
    db_config ← (if py_eq_str n "sqlite3"
                 then force_single_connection db_config
                 else ok db_config);
    engine ← create_engine db_config;
    a ← getitem db_config "args";
    a ← setitem a "cp_openfun" (VMethod engine);
    db_config ← setitem db_config "args" a;
    ok {| name := name; config := db_config; data_stores := data_stores;
          engine_of := engine; _pool := None |}.

(** [s.startswith(p)] *)
Definition startswith (s p : string) : bool := String.prefix p s.

(** [o.items()], as the dictionary comprehension of [make_conn] reads it. *)
Definition items (o : value) : result (gmap string value) :=
  match o with
  | VDict d => ok d
  | _ => raise AttributeError
  end.

(** [{k: v for k, v in d.items() if not k.startswith("cp_")}] *)
Definition without_cp (d : gmap string value) : gmap string value :=
  filter (λ kv, startswith kv.1 "cp_" = false) d.

(** ** External calls

    The pool and the driver are collaborators.  Every call made to them is
    recorded, in order and with its outcome, in the history [world]; whether
    a call raises is decided by the collaborator and may change from one call
    to the next, so it is a function of the number of calls made so far and
    of the arguments. *)
Inductive event :=
| EvConnectionPool (c : pool_call) (raised : option exn)
| EvConnect (module : string) (params : gmap string value)
            (raised : option exn).

Definition world : Type := list event.

Definition is_pool_call (ev : event) : bool :=
  match ev with
  | EvConnectionPool _ _ => true
  | EvConnect _ _ _ => false
  end.

Definition is_pool_built (ev : event) : bool :=
  match ev with
  | EvConnectionPool _ None => true
  | _ => false
  end.

(** The number of calls to adbapi.ConnectionPool, and the number of them
    that returned a pool. *)
Definition pool_calls (w : world) : nat := length (List.filter is_pool_call w).
Definition pools_built (w : world) : nat := length (List.filter is_pool_built w).

(** [self._pool = p] *)
Definition with_pool (self : DatabaseConnectionConfig) (p : option Pool)
  : DatabaseConnectionConfig :=
  {| name := name self; config := config self;
     data_stores := data_stores self; engine_of := engine_of self;
     _pool := p |}.

Section PoolLifecycle.

Variable ConnectionPool_raises : nat -> pool_call -> option exn.
Variable connect_raises : nat -> string -> gmap string value -> option exn.

(** [adbapi.ConnectionPool(dbapiName, cp_reactor=..., **connkw)] *)
Definition ConnectionPool (c : pool_call) (w : world) : result Pool * world :=
  let raised := ConnectionPool_raises (length w) c in
  (match raised with
   | Some e => raise e
   | None => ok (MkPool (length w) c)
   end,
   w ++ [EvConnectionPool c raised]).

(** [module.connect] applied to the keyword arguments [params] *)
Definition connect (module : string) (params : gmap string value) (w : world)
  : result Connection * world :=
  let raised := connect_raises (length w) module params in
  (match raised with
   | Some e => raise e
   | None => ok (MkConnection (length w) module params)
   end,
   w ++ [EvConnect module params raised]).

(** The arguments of the call at lines 63-65:
    [self.config["name"], cp_reactor=reactor, **self.config.get("args", {})].
    A keyword given twice is a TypeError of the call. *)
Definition pool_arguments (self : DatabaseConnectionConfig) (reactor : nat)
  : result pool_call :=
  n ← getitem (config self) "name";
  a ← get (config self) "args" (VDict ∅);
  kw ← kwargs a;
  if bool_decide (is_Some (kw !! "cp_reactor")) then raise TypeError
  else ok (PoolCall n reactor kw).

(** [DatabaseConnectionConfig.get_pool(self, reactor)]: what the call
    returns or raises, the object afterwards, and the history afterwards. *)
Definition get_pool (self : DatabaseConnectionConfig) (reactor : nat)
    (w : world) : result Pool * DatabaseConnectionConfig * world :=
  match _pool self with
  | Some p => (ok p, self, w)
  | None =>
      match pool_arguments self reactor with
      | inl e => (raise e, self, w)
      | inr c =>
          match ConnectionPool c w with
          | (inl e, w') => (raise e, self, w')
          | (inr p, w') =>
              (ok p, with_pool self (Some p), w')
          end
      end
  end.

(** The dictionary comprehension of [make_conn] (lines 76-80). *)
Definition db_params (self : DatabaseConnectionConfig)
  : result (gmap string value) :=
  a ← get (config self) "args" (VDict ∅);
  d ← items a;
  ok (without_cp d).

(** [DatabaseConnectionConfig.make_conn(self)] *)
Definition make_conn (self : DatabaseConnectionConfig) (w : world)
  : result Connection * world :=
  match db_params self with
  | inl e => (raise e, w)
  | inr p => connect (engine_module (engine_of self)) p w
  end.

(** Calls of [get_pool] made one after the other, with the given reactors:
    what each returned or raised, the object and the history at the end. *)
Fixpoint get_pool_seq (self : DatabaseConnectionConfig) (reactors : list nat)
    (w : world) : list (result Pool) * DatabaseConnectionConfig * world :=
  match reactors with
  | [] => ([], self, w)
  | r :: reactors =>
      let '(x, self, w) := get_pool self r w in
      let '(xs, self, w) := get_pool_seq self reactors w in
      (x :: xs, self, w)
  end.

End PoolLifecycle.

(** ** DatabaseConfig *)

Definition nl : string := String "010"%char EmptyString.
Definition dquote : string := String "034"%char EmptyString.

(** [s.endswith("/")] *)
Fixpoint ends_with_slash (s : string) : bool :=
  match s with
  | EmptyString => false
  | String c EmptyString => Ascii.eqb c "/"%char
  | String _ s' => ends_with_slash s'
  end.

(** [os.path.join(a, b)] of posixpath, for two components. *)
Definition os_path_join (a b : string) : string :=
  if startswith b "/" then b
  else if String.eqb a EmptyString || ends_with_slash a then a +:+ b
  else a +:+ "/" +:+ b.

(** The text of lines 112-118 with [database_path] substituted. *)
Definition default_database_conf (database_path : string) : string :=
  "# The database engine name" +:+ nl +:+
  "          name: " +:+ dquote +:+ "sqlite3" +:+ dquote +:+ nl +:+
  "          # Arguments to pass to the engine" +:+ nl +:+
  "          args:" +:+ nl +:+
  "            # Path to the database" +:+ nl +:+
  "            database: " +:+ dquote +:+ database_path +:+ dquote +:+ nl +:+
  "            ".

(** The text of lines 125-133 with [database_conf] substituted. *)
Definition config_section (database_conf : string) : string :=
  "        ## Database ##" +:+ nl +:+
  nl +:+
  "        database:" +:+ nl +:+
  "          " +:+ database_conf +:+ nl +:+
  "        # Number of events to cache in memory." +:+ nl +:+
  "        #" +:+ nl +:+
  "        #event_cache_size: 10K" +:+ nl +:+
  "        ".

(** [{"name": "sqlite3", "args": {}}] (line 94) *)
Definition default_database_config : gmap string value :=
  {[ "name" := VStr "sqlite3"; "args" := VDict ∅ ]}.

Record DatabaseConfig := MkDatabaseConfig {
  event_cache_size : Z;
  database_config : value
}.

Section DatabaseSection.

(** [Config.parse_size] of synapse.config._base, which is not part of the
    module: the size an expression denotes, or the exception raised. *)
Variable parse_size : value -> result Z.

(** The absolute path a path string resolves to (os.path.abspath against
    the working directory of the process). *)
Variable resolve_path : string -> string.

(** What [Config.abspath] does with an object that is neither None nor a
    string; the specification is silent about it. *)
Variable abspath_other : value -> result value.

(** [indent(yaml.dump(database_conf), " " * 10).lstrip()], text rendering
    by the yaml and textwrap libraries. *)
Variable dump_indented : value -> result string.

(** Modelled from the spec: [Config.abspath] of synapse.config._base, which
    is not part of the module.  Section 4.3 and section 6: a given path is
    resolved to an absolute path against the base directory of the process,
    and an absent path stays absent. *)
Definition abspath (file_path : value) : result value :=
  match file_path with
  | VNone => ok VNone
  | VStr s => ok (VStr (resolve_path s))
  | v => abspath_other v
  end.

(** The path lines 141-142 compute for the string [p]. *)
Definition stored_path (p : string) : string :=
  if String.eqb p ":memory:" then p else resolve_path p.

(** [DatabaseConfig.set_databasepath(self, database_path)] *)
Definition set_databasepath (self : DatabaseConfig) (database_path : value)
  : result DatabaseConfig :=
  database_path ← (if negb (py_eq_str database_path ":memory:")
                   then abspath database_path
                   else ok database_path);
  n ← get (database_config self) "name" VNone;
  if py_eq_str n "sqlite3" then
    if negb (is_None database_path) then
      a ← getitem (database_config self) "args";
      a ← setitem a "database" database_path;
      c ← setitem (database_config self) "args" a;
      ok {| event_cache_size := event_cache_size self;
            database_config := c |}
    else ok self
  else ok self.

(** [DatabaseConfig.read_config(self, config)]: the attributes of [self]
    when it returns, or the exception raised. *)
Definition read_config (config : value) : result DatabaseConfig :=
  size_expr ← get config "event_cache_size" (VStr "10K");
  size ← parse_size size_expr;
  c ← get config "database" VNone;
  let c := if is_None c
           then VDict default_database_config
           else c in
  n ← get c "name" VNone;
  c ← (if py_eq_str n "psycopg2" then ok c
       else if py_eq_str n "sqlite3" then force_single_connection c
       else raise (RuntimeError n));
  database_path ← get config "database_path" VNone;
  set_databasepath {| event_cache_size := size; database_config := c |}
                   database_path.

(** [DatabaseConfig.read_arguments(self, args)], with [args.database_path]
    for [args]. *)
Definition read_arguments (self : DatabaseConfig) (database_path : value)
  : result DatabaseConfig :=
  set_databasepath self database_path.

(** [DatabaseConfig.generate_config_section(self, data_dir_path,
    database_conf)] *)
Definition generate_config_section (data_dir_path : string)
    (database_conf : value) : result string :=
  database_conf ← (if negb (truthy database_conf)
                   then ok (default_database_conf
                              (os_path_join data_dir_path "homeserver.db"))
                   else dump_indented database_conf);
  ok (config_section database_conf).

End DatabaseSection.

(** ** Calls of get_pool that overlap

    [get_pool] holds no lock, so a call running in one thread can be
    suspended between two of its statements while a call in another thread
    runs.  A call is followed statement by statement: the test of line 62,
    the construction and assignment of lines 63-65, the return of line 67.
    (Threads can also be switched inside a statement; every interleaving of
    whole statements is one the interpreter can produce.) *)
Inductive pc :=
| AtTest
| AtBuild
| AtReturn
| Returned (r : result (option Pool)).

Record call := MkCall {
  call_reactor : nat;
  call_pc : pc
}.

Record system := MkSystem {
  sys_self : DatabaseConnectionConfig;
  sys_world : world;
  sys_calls : list call
}.

(** What a call that ran alone returned, as a call followed statement by
    statement records it. *)
Definition as_returned (x : result Pool) : result (option Pool) :=
  match x with
  | inl e => inl e
  | inr p => inr (Some p)
  end.

Section Interleaving.

Variable ConnectionPool_raises : nat -> pool_call -> option exn.

(** The next statement of one call. *)
Definition step_call (self : DatabaseConnectionConfig) (w : world) (c : call)
  : DatabaseConnectionConfig * world * call :=
  match call_pc c with
  | AtTest =>
      (self, w,
       MkCall (call_reactor c)
              (match _pool self with None => AtBuild | Some _ => AtReturn end))
  | AtBuild =>
      match pool_arguments self (call_reactor c) with
      | inl e => (self, w, MkCall (call_reactor c) (Returned (raise e)))
      | inr a =>
          match ConnectionPool ConnectionPool_raises a w with
          | (inl e, w') =>
              (self, w', MkCall (call_reactor c) (Returned (raise e)))
          | (inr p, w') =>
              (with_pool self (Some p), w', MkCall (call_reactor c) AtReturn)
          end
      end
  | AtReturn => (self, w, MkCall (call_reactor c) (Returned (ok (_pool self))))
  | Returned _ => (self, w, c)
  end.

(** The thread running call number [i] executes one statement. *)
Definition step (i : nat) (s : system) : system :=
  match sys_calls s !! i with
  | None => s
  | Some c =>
      let '(self, w, c') := step_call (sys_self s) (sys_world s) c in
      MkSystem self w (<[i := c']> (sys_calls s))
  end.

(** A schedule names, statement by statement, the call that runs. *)
Fixpoint run (schedule : list nat) (s : system) : system :=
  match schedule with
  | [] => s
  | i :: schedule => run schedule (step i s)
  end.

(** The calls of [order] one after the other, each from its first
    statement to its return. *)
Definition serial (order : list nat) : list nat :=
  flat_map (λ i, [i; i; i]) order.

End Interleaving.

(** [n] calls of get_pool about to start, with the given reactors. *)
Definition calls_of (reactors : list nat) : list call :=
  map (λ r, MkCall r AtTest) reactors.

(** What call number [i] returned, if it has. *)
Definition returned (s : system) (i : nat) : option (result (option Pool)) :=
  match sys_calls s !! i with
  | Some (MkCall _ (Returned r)) => Some r
  | _ => None
  end.

(** ** A sample environment

    Concrete collaborators, on which the model is evaluated. *)
Module Sample.

(** A pool constructor and a driver that never raise. *)
Definition pool_up : nat -> pool_call -> option exn := λ _ _, None.
Definition driver_up : nat -> string -> gmap string value -> option exn :=
  λ _ _ _, None.

(** A pool constructor that raises on the very first external call (the
    database is not reachable yet) and succeeds afterwards. *)
Definition pool_down_once : nat -> pool_call -> option exn :=
  λ t _, match t with O => Some (DriverError 1) | S _ => None end.

Definition digit (c : ascii) : option Z :=
  let n := nat_of_ascii c in
  if (48 <=? n)%nat && (n <=? 57)%nat then Some (Z.of_nat (n - 48)) else None.

(** The leading number of a size expression and what follows it. *)
Fixpoint number (s : string) (acc : option Z) : option (Z * string) :=
  match s with
  | EmptyString => (λ n, (n, EmptyString)) <$> acc
  | String c s' =>
      match digit c with
      | Some d => number s' (Some (10 * default 0 acc + d))%Z
      | None => (λ n, (n, s)) <$> acc
      end
  end.

Definition unit_factor (u : string) : option Z :=
  if String.eqb u EmptyString then Some 1%Z
  else if String.eqb u "K" || String.eqb u "k" then Some 1024%Z
  else if String.eqb u "M" || String.eqb u "m" then Some (1024 * 1024)%Z
  else if String.eqb u "G" || String.eqb u "g" then Some (1024 * 1024 * 1024)%Z
  else None.

(** Modelled from the spec: [Config.parse_size] of synapse.config._base,
    which is not part of the module.  Section 4.3: a size expression is a
    number followed by a unit among none, K, M and G, case-insensitive, and
    a malformed expression fails with ConfigError.  The unit base is 1024. *)
Definition parse_size (v : value) : result Z :=
  match v with
  | VInt z => ok z
  | VStr s =>
      match number s None with
      | Some (n, u) =>
          match unit_factor u with
          | Some f => ok (n * f)%Z
          | None => raise (ConfigError v)
          end
      | None => raise (ConfigError v)
      end
  | _ => raise (ConfigError v)
  end.

(** Paths are resolved against the working directory /srv/synapse. *)
Definition resolve_path (s : string) : string :=
  if startswith s "/" then s else os_path_join "/srv/synapse" s.

Definition abspath_other (v : value) : result value := raise TypeError.

(** A rendering that only knows the empty document. *)
Definition dump_indented (v : value) : result string :=
  match v with
  | VDict d => if bool_decide (d = ∅) then ok "{}" else raise (DriverError 0)
  | _ => raise (DriverError 0)
  end.

(** [{"name": "sqlite3", "args": {"cp_min": 5, "cp_max": 5,
      "database": "homeserver.db"}}] *)
Definition sqlite_5_5 : gmap string value :=
  {[ "name" := VStr "sqlite3";
     "args" := VDict {[ "cp_min" := VInt 5; "cp_max" := VInt 5;
                        "database" := VStr "homeserver.db" ]} ]}.

(** [{"name": "psycopg2", "args": {"user": "synapse", "cp_min": 5,
      "cp_max": 10}}] *)
Definition postgres_5_10 : gmap string value :=
  {[ "name" := VStr "psycopg2";
     "args" := VDict {[ "user" := VStr "synapse"; "cp_min" := VInt 5;
                        "cp_max" := VInt 10 ]} ]}.

(** [{"name": "psycopg2", "args": {"cp_openfun": "my_hook"}}] *)
Definition postgres_own_hook : gmap string value :=
  {[ "name" := VStr "psycopg2";
     "args" := VDict {[ "cp_openfun" := VStr "my_hook" ]} ]}.

End Sample.

(** ** Reading a configuration *)

(** The mapping under "args" of a database configuration; empty when there
    is none. *)
Definition args_of (db_config : value) : gmap string value :=
  match db_config with
  | VDict d => match d !! "args" with Some (VDict a) => a | _ => ∅ end
  | _ => ∅
  end.

(** "args" is absent or a dictionary. *)
Definition args_absent_or_dict (d : gmap string value) : bool :=
  match d !! "args" with
  | None | Some (VDict _) => true
  | Some _ => false
  end.

(** The arguments an engine's configuration holds after normalization. *)
Definition normalized_args (e : engine) (db_config : value)
  : gmap string value :=
  match e with
  | Sqlite3Engine => sqlite3_forced ∪ args_of db_config
  | PostgresEngine => args_of db_config
  end.

(** The object [__init__] builds for engine [e] from the dictionary [d]. *)
Definition built (nm : string) (d : gmap string value) (ds : list string)
    (e : engine) : DatabaseConnectionConfig :=
  {| name := nm;
     config := VDict (<["args" := VDict (<["cp_openfun" := VMethod e]>
                                           (normalized_args e (VDict d)))]> d);
     data_stores := ds; engine_of := e; _pool := None |}.

(** What [__init__] needs of "args": a dictionary, which sqlite3 creates
    when there is none. *)
Definition args_usable (e : engine) (d : gmap string value) : Prop :=
  match d !! "args" with
  | Some (VDict _) => True
  | None => e = Sqlite3Engine
  | Some _ => False
  end.

(** The call to adbapi.ConnectionPool that [get_pool] makes for an object
    built by [__init__]. *)
Definition pool_call_of (self : DatabaseConnectionConfig) (reactor : nat)
  : pool_call :=
  PoolCall (VStr (engine_module (engine_of self))) reactor
           (args_of (config self)).

(** The object built from [Sample.sqlite_5_5]. *)
Definition sample_master : DatabaseConnectionConfig :=
  built "master" Sample.sqlite_5_5 [] Sqlite3Engine.

(** Two calls of get_pool on [sample_master] that overlap: each runs its
    test before the other has stored a pool. *)
Definition sample_race : system :=
  run Sample.pool_up [0; 1; 0; 0; 1; 1]
      (MkSystem sample_master [] (calls_of [7; 7])).

(** The same, the first call returning only after the second has stored
    its pool. *)
Definition sample_race_late_return : system :=
  run Sample.pool_up [0; 1; 0; 1; 0; 1]
      (MkSystem sample_master [] (calls_of [7; 7])).

(** What read_config leaves for the database block [Sample.sqlite_5_5]. *)
Definition sample_database_config : DatabaseConfig :=
  {| event_cache_size := 10240;
     database_config :=
       VDict (<["args" := VDict (sqlite3_forced
                                 ∪ args_of (VDict Sample.sqlite_5_5))]>
                Sample.sqlite_5_5) |}.

(** No call is under way: every call is about to start or has returned, and
    a call that returned normally returned the pool the object holds. *)
Definition quiescent (s : system) : Prop :=
  ∀ i c, sys_calls s !! i = Some c →
    call_pc c = AtTest
    ∨ ∃ x, call_pc c = Returned x
           ∧ ∀ p, x = ok p → is_Some p ∧ p = _pool (sys_self s).

(** Since the history had [base] pools, none was built and the object holds
    none, or at most one was built and the object holds a pool. *)
Definition at_most_one_built (base : nat) (s : system) : Prop :=
  (_pool (sys_self s) = None ∧ pools_built (sys_world s) = base)
  ∨ (is_Some (_pool (sys_self s)) ∧ pools_built (sys_world s) ≤ S base).

(** The keys of [sqlite3_forced]. *)
Definition forced_keys : list string :=
  ["cp_min"; "cp_max"; "check_same_thread"].

(** Single-connection mode: a pool of exactly one connection, with the
    thread check of the driver set as sqlite3_forced sets it. *)
Definition single_connection (a : gmap string value) : Prop :=
  a !! "cp_min" = Some (VInt 1) ∧ a !! "cp_max" = Some (VInt 1) ∧
  a !! "check_same_thread" = Some (VBool false).

(** [{"name": "sqlite3", "args": {"cp_reactor": 3}}]: the caller names a
    reactor among the arguments. *)
Definition sample_reactor_clash : gmap string value :=
  {[ "name" := VStr "sqlite3"; "args" := VDict {[ "cp_reactor" := VInt 3 ]} ]}.

(** A call that has not yet run past the statement that builds the pool. *)
Definition is_pending (c : call) : bool :=
  match call_pc c with
  | AtTest | AtBuild => true
  | AtReturn | Returned _ => false
  end.

Definition pending (calls : list call) : nat :=
  length (List.filter is_pending calls).

(** A call that is about to return finds a pool in the object, and a call
    that returned normally returned a pool. *)
Definition returns_a_pool (s : system) : Prop :=
  ∀ i c, sys_calls s !! i = Some c →
    match call_pc c with
    | AtReturn => is_Some (_pool (sys_self s))
    | Returned (inr o) => is_Some o
    | _ => True
    end.

(** Every call is about to start, about to return, or has returned [p]. *)
Definition served_by (p : Pool) (calls : list call) : Prop :=
  ∀ i c, calls !! i = Some c →
    call_pc c = AtTest ∨ call_pc c = AtReturn
    ∨ call_pc c = Returned (ok (Some p)).

(** * Properties *)

Lemma py_eq_str_spec v s : py_eq_str v s = true ↔ v = VStr s.
Proof.
  destruct v; simpl; try (split; [discriminate | congruence]).
  rewrite String.eqb_eq. split; congruence.
Qed.

Lemma py_eq_str_refl s : py_eq_str (VStr s) s = true.
Proof. by apply py_eq_str_spec. Qed.

Lemma py_eq_str_neq v s : v ≠ VStr s → py_eq_str v s = false.
Proof.
  intros Hne. destruct (py_eq_str v s) eqn:E; [|done].
  by apply py_eq_str_spec in E.
Qed.

Lemma force_single_connection_dict d :
  args_absent_or_dict d = true →
  force_single_connection (VDict d)
  = ok (VDict (<["args" := VDict (sqlite3_forced ∪ args_of (VDict d))]> d)).
Proof.
  unfold args_absent_or_dict, force_single_connection, args_of. simpl.
  destruct (d !! "args") as [[]|] eqn:E; try discriminate; intros _; simpl.
  - done.
  - by rewrite insert_insert_eq, map_union_empty.
Qed.

Lemma init_built nm d ds e :
  d !! "name" = Some (VStr (engine_module e)) →
  args_usable e d →
  __init__ nm (VDict d) ds = ok (built nm d ds e).
Proof.
  intros Hn Ha. unfold __init__, create_engine, built. simpl. rewrite Hn. simpl.
  unfold args_usable in Ha.
  destruct e; simpl.
  - rewrite force_single_connection_dict; simpl.
    + rewrite (lookup_insert_ne _ "args" "name"), Hn by done. simpl.
      rewrite lookup_insert_eq. simpl. by rewrite insert_insert_eq.
    + unfold args_absent_or_dict. by destruct (d !! "args") as [[]|].
  - rewrite Hn. simpl.
    by destruct (d !! "args") as [[]|].
Qed.

Lemma init_inv nm db_config ds self :
  __init__ nm db_config ds = inr self →
  ∃ d e, db_config = VDict d ∧ d !! "name" = Some (VStr (engine_module e)) ∧
         args_usable e d ∧ self = built nm d ds e.
Proof.
  intros H. destruct db_config as [| | | | | |d]; try discriminate.
  exists d. pose proof H as H0. unfold __init__ in H. simpl in H.
  destruct (d !! "name") as [n|] eqn:Hn; simpl in H; [|discriminate].
  destruct (py_eq_str n "sqlite3") eqn:E1; simpl in H.
  - apply py_eq_str_spec in E1. subst n. exists Sqlite3Engine.
    assert (Ha : args_usable Sqlite3Engine d).
    { unfold args_usable. unfold force_single_connection in H. simpl in H.
      destruct (d !! "args") as [[]|]; try done. }
    split; [done|]. split; [done|]. split; [done|].
    rewrite (init_built nm d ds Sqlite3Engine) in H0 by done. by inversion H0.
  - destruct (py_eq_str n "psycopg2") eqn:E2; simpl in H; [|discriminate].
    apply py_eq_str_spec in E2. subst n. exists PostgresEngine.
    assert (Ha : args_usable PostgresEngine d).
    { unfold args_usable. unfold create_engine in H. simpl in H.
      rewrite Hn in H. simpl in H.
      destruct (d !! "args") as [[]|]; try done. }
    split; [done|]. split; [done|]. split; [done|].
    rewrite (init_built nm d ds PostgresEngine) in H0 by done. by inversion H0.
Qed.

(** ** The forced parameters *)

Lemma forced_single_connection a : single_connection (sqlite3_forced ∪ a).
Proof.
  unfold single_connection, sqlite3_forced.
  repeat split; apply lookup_union_Some_l; by simplify_map_eq.
Qed.

Lemma forced_other a k :
  k ∉ forced_keys → (sqlite3_forced ∪ a) !! k = a !! k.
Proof.
  intros Hk. apply lookup_union_r. unfold sqlite3_forced, forced_keys in *.
  rewrite !lookup_insert_ne, lookup_singleton_ne; [done|..];
    intros ?; subst k; apply Hk; set_solver.
Qed.

Lemma other_not_forced k :
  k ≠ "cp_min" → k ≠ "cp_max" → k ≠ "check_same_thread" → k ∉ forced_keys.
Proof.
  intros H1 H2 H3. unfold forced_keys.
  rewrite !not_elem_of_cons. repeat split; try done. apply not_elem_of_nil.
Qed.

Lemma single_connection_insert a k v :
  k ∉ forced_keys → single_connection a → single_connection (<[k := v]> a).
Proof.
  unfold single_connection, forced_keys. intros Hk (H1 & H2 & H3).
  rewrite !lookup_insert_ne; [done|..]; intros ?; subst k; apply Hk; set_solver.
Qed.

Lemma args_of_insert d a : args_of (VDict (<["args" := VDict a]> d)) = a.
Proof. unfold args_of. by rewrite lookup_insert_eq. Qed.

Lemma args_of_built nm d ds e :
  args_of (config (built nm d ds e))
  = <["cp_openfun" := VMethod e]> (normalized_args e (VDict d)).
Proof. apply args_of_insert. Qed.

Section DatabaseSectionFacts.

Variable parse_size : value -> result Z.
Variable resolve_path : string -> string.
Variable abspath_other : value -> result value.

Local Abbreviation set_databasepath :=
  (set_databasepath resolve_path abspath_other).
Local Abbreviation read_config :=
  (read_config parse_size resolve_path abspath_other).
Local Abbreviation stored_path := (stored_path resolve_path).

Lemma set_databasepath_None self d :
  database_config self = VDict d → set_databasepath self VNone = ok self.
Proof.
  intros Hd. unfold set_databasepath. rewrite Hd. simpl.
  by destruct (py_eq_str _ _).
Qed.

Lemma set_databasepath_sqlite3 self d a p :
  database_config self = VDict d →
  d !! "name" = Some (VStr "sqlite3") →
  d !! "args" = Some (VDict a) →
  set_databasepath self (VStr p)
  = ok {| event_cache_size := event_cache_size self;
          database_config :=
            VDict (<["args" := VDict (<["database" := VStr (stored_path p)]> a)]> d) |}.
Proof.
  intros Hd Hn Ha. unfold set_databasepath, stored_path. rewrite Hd. simpl.
  destruct (String.eqb p ":memory:"); simpl; rewrite Hn; simpl;
    by rewrite Ha.
Qed.

Lemma set_databasepath_not_sqlite3 self d p :
  database_config self = VDict d →
  py_eq_str (default VNone (d !! "name")) "sqlite3" = false →
  set_databasepath self (VStr p) = ok self.
Proof.
  intros Hd Hn. unfold set_databasepath. rewrite Hd. simpl.
  destruct (String.eqb p ":memory:"); simpl; by rewrite Hn.
Qed.

(** Whatever the path, [set_databasepath] changes nothing but the entry
    "database" of the arguments. *)
Lemma set_databasepath_args self d a path self' :
  database_config self = VDict d →
  d !! "args" = Some (VDict a) →
  set_databasepath self path = ok self' →
  ∃ a', database_config self' = VDict (<["args" := VDict a']> d) ∧
        (a' = a ∨ ∃ v, a' = <["database" := v]> a).
Proof.
  intros Hd Ha H.
  assert (Hid : VDict d = VDict (<["args" := VDict a]> d))
    by (by rewrite insert_id).
  unfold set_databasepath in H. rewrite Hd in H.
  destruct (if negb (py_eq_str path ":memory:") then abspath resolve_path abspath_other path
            else ok path) as [e|path'] eqn:Hp; simpl in H; [discriminate|].
  destruct (py_eq_str (default VNone (d !! "name")) "sqlite3");
    [|inversion H; subst; exists a; rewrite Hd; auto].
  destruct (is_None path'); simpl in H;
    [inversion H; subst; exists a; rewrite Hd; auto|].
  rewrite Ha in H. simpl in H. inversion H; subst; simpl. eauto.
Qed.

Lemma read_config_database cfg d size :
  cfg !! "database" = Some (VDict d) →
  parse_size (default (VStr "10K") (cfg !! "event_cache_size")) = ok size →
  read_config (VDict cfg)
  = (c ← (if py_eq_str (default VNone (d !! "name")) "psycopg2" then ok (VDict d)
          else if py_eq_str (default VNone (d !! "name")) "sqlite3"
               then force_single_connection (VDict d)
               else raise (RuntimeError (default VNone (d !! "name"))));
     set_databasepath {| event_cache_size := size; database_config := c |}
                      (default VNone (cfg !! "database_path"))).
Proof.
  intros Hd Hs. unfold read_config. simpl. rewrite Hs. simpl.
  by rewrite Hd.
Qed.

End DatabaseSectionFacts.

(** ** C1: sqlite3 is forced to a single connection *)

Section SingleConnection.

Variable parse_size : value -> result Z.
Variable resolve_path : string -> string.
Variable abspath_other : value -> result value.

Local Abbreviation read_config :=
  (read_config parse_size resolve_path abspath_other).

(** C1: for a configuration whose backend identifier is sqlite3, the
    normalization statement that [DatabaseConnectionConfig.__init__] and
    [DatabaseConfig.read_config] both run sets cp_min to 1, cp_max to 1 and
    check_same_thread to False whatever the caller supplied for these keys,
    and leaves every other entry of args as the caller supplied it.  So do
    the constructor as a whole (which afterwards binds cp_openfun) and
    read_config as a whole (which afterwards applies the database path). *)
Theorem sqlite3_forced_to_single_connection nm d ds :
  d !! "name" = Some (VStr "sqlite3") →
  args_absent_or_dict d = true →
  force_single_connection (VDict d)
  = ok (VDict (<["args" := VDict (sqlite3_forced ∪ args_of (VDict d))]> d))
  ∧ single_connection (sqlite3_forced ∪ args_of (VDict d))
  ∧ (∀ k, k ∉ forced_keys →
       (sqlite3_forced ∪ args_of (VDict d)) !! k = args_of (VDict d) !! k)
  ∧ (∃ self, __init__ nm (VDict d) ds = ok self ∧
       single_connection (args_of (config self)) ∧
       ∀ k, k ∉ forced_keys → k ≠ "cp_openfun" →
            args_of (config self) !! k = args_of (VDict d) !! k)
  ∧ (∀ cfg size,
       cfg !! "database" = Some (VDict d) →
       parse_size (default (VStr "10K") (cfg !! "event_cache_size")) = ok size →
       (default VNone (cfg !! "database_path") = VNone →
        read_config (VDict cfg)
        = ok {| event_cache_size := size;
                database_config :=
                  VDict (<["args" := VDict (sqlite3_forced ∪ args_of (VDict d))]> d) |})
       ∧ (∀ self, read_config (VDict cfg) = ok self →
            single_connection (args_of (database_config self)) ∧
            ∀ k, k ∉ forced_keys → k ≠ "database" →
                 args_of (database_config self) !! k = args_of (VDict d) !! k)).
Proof.
  intros Hn Ha.
  split; [by apply force_single_connection_dict|].
  split; [apply forced_single_connection|].
  split; [apply forced_other|].
  split.
  - exists (built nm d ds Sqlite3Engine). split.
    + apply init_built; [done|]. unfold args_usable.
      unfold args_absent_or_dict in Ha. by destruct (d !! "args") as [[]|].
    + rewrite args_of_built. simpl. split.
      * apply single_connection_insert; [|apply forced_single_connection].
        by apply other_not_forced.
      * intros k Hk Hk'. rewrite lookup_insert_ne by done. by apply forced_other.
  - intros cfg size Hd Hs.
    rewrite (read_config_database _ _ _ cfg d size Hd Hs), Hn. simpl.
    rewrite force_single_connection_dict by done. simpl. split.
    + intros ->. by apply set_databasepath_None with (d := <["args" := VDict (sqlite3_forced ∪ args_of (VDict d))]> d).
    + intros self H.
      eapply set_databasepath_args in H as (a' & -> & Ha'); [|done|apply lookup_insert_eq].
      rewrite insert_insert_eq, args_of_insert.
      destruct Ha' as [->|[v ->]].
      * split; [apply forced_single_connection|]. intros k Hk _. by apply forced_other.
      * split.
        -- apply single_connection_insert; [|apply forced_single_connection].
           by apply other_not_forced.
        -- intros k Hk Hk'. rewrite lookup_insert_ne by done. by apply forced_other.
Qed.

End SingleConnection.

Lemma sqlite3_forced_to_single_connection_witness :
  Sample.sqlite_5_5 !! "name" = Some (VStr "sqlite3") ∧
  args_absent_or_dict Sample.sqlite_5_5 = true ∧
  ∃ self, __init__ "master" (VDict Sample.sqlite_5_5) [] = ok self ∧
          single_connection (args_of (config self)) ∧
          args_of (config self) !! "database" = Some (VStr "homeserver.db").
Proof.
  split; [reflexivity|]. split; [reflexivity|].
  destruct (sqlite3_forced_to_single_connection
              Sample.parse_size Sample.resolve_path Sample.abspath_other
              "master" Sample.sqlite_5_5 [] eq_refl eq_refl)
    as (_ & _ & _ & (self & Hi & Hs & Ho) & _).
  exists self. split; [exact Hi|]. split; [exact Hs|].
  rewrite Ho; [reflexivity| |discriminate].
  by apply other_not_forced.
Defined.

(** ** The pool of a connection configuration *)

Lemma pools_built_snoc w c r :
  pools_built (w ++ [EvConnectionPool c r])
  = (pools_built w + match r with None => 1 | Some _ => 0 end)%nat.
Proof.
  unfold pools_built. rewrite List.filter_app, length_app.
  by destruct r.
Qed.

Lemma pool_calls_snoc w c r :
  pool_calls (w ++ [EvConnectionPool c r]) = S (pool_calls w).
Proof.
  unfold pool_calls. rewrite List.filter_app, length_app. simpl. lia.
Qed.

Lemma built_name nm d ds e :
  d !! "name" = Some (VStr (engine_module e)) →
  getitem (config (built nm d ds e)) "name" = ok (VStr (engine_module e)).
Proof.
  intros Hn. simpl. by rewrite lookup_insert_ne, Hn.
Qed.

Lemma built_args nm d ds e :
  get (config (built nm d ds e)) "args" (VDict ∅)
  = ok (VDict (args_of (config (built nm d ds e)))).
Proof.
  rewrite args_of_built. simpl. by rewrite lookup_insert_eq.
Qed.

Lemma pool_arguments_built nm d ds e r :
  d !! "name" = Some (VStr (engine_module e)) →
  args_of (config (built nm d ds e)) !! "cp_reactor" = None →
  pool_arguments (built nm d ds e) r
  = ok (PoolCall (VStr (engine_module e)) r (args_of (config (built nm d ds e)))).
Proof.
  intros Hn Hr. unfold pool_arguments.
  rewrite built_name, built_args by done.
  remember (args_of (config (built nm d ds e))) as a. simpl.
  rewrite bool_decide_eq_false_2; [done|].
  rewrite Hr. by intros [? ?].
Qed.

Section PoolFacts.

Variable ConnectionPool_raises : nat -> pool_call -> option exn.

Local Abbreviation get_pool := (get_pool ConnectionPool_raises).
Local Abbreviation get_pool_seq := (get_pool_seq ConnectionPool_raises).

Lemma get_pool_cached self p r w :
  _pool self = Some p → get_pool self r w = (ok p, self, w).
Proof. intros H. unfold get_pool. by rewrite H. Qed.

Lemma get_pool_fresh self r w c :
  _pool self = None →
  pool_arguments self r = ok c →
  get_pool self r w
  = match ConnectionPool_raises (length w) c with
    | Some e => (raise e, self, w ++ [EvConnectionPool c (Some e)])
    | None => (ok (MkPool (length w) c),
               with_pool self (Some (MkPool (length w) c)),
               w ++ [EvConnectionPool c None])
    end.
Proof.
  intros Hp Hc. unfold get_pool, ConnectionPool. rewrite Hp, Hc. simpl.
  by destruct (ConnectionPool_raises (length w) c).
Qed.

Lemma get_pool_seq_cached self p rs w :
  _pool self = Some p →
  get_pool_seq self rs w = (map (λ _, ok p) rs, self, w).
Proof.
  intros H. induction rs as [|r rs IH]; simpl; [done|].
  by rewrite get_pool_cached with (p := p), IH.
Qed.

(** What a call that returns a pool has done. *)
Lemma get_pool_ok self r w p self' w' :
  get_pool self r w = (ok p, self', w') →
  _pool self' = Some p ∧ config self' = config self ∧
  engine_of self' = engine_of self ∧
  (_pool self = Some p ∧ self' = self ∧ w' = w
   ∨ _pool self = None ∧
     ∃ c, pool_arguments self r = ok c ∧ p = MkPool (length w) c ∧
          w' = w ++ [EvConnectionPool c None]).
Proof.
  unfold get_pool, ConnectionPool. intros H.
  destruct (_pool self) as [q|] eqn:Hq.
  - inversion H; subst. repeat split; try done. by left.
  - destruct (pool_arguments self r) as [e|c] eqn:Hc; [discriminate|].
    simpl in H.
    destruct (ConnectionPool_raises (length w) c) eqn:Hr; [discriminate|].
    inversion H; subst. simpl. repeat split; try done. right. eauto.
Qed.

(** What a call that raises has done. *)
Lemma get_pool_raises self r w e self' w' :
  get_pool self r w = (raise e, self', w') →
  self' = self ∧ _pool self = None ∧ pools_built w' = pools_built w.
Proof.
  unfold get_pool, ConnectionPool. intros H.
  destruct (_pool self) as [q|] eqn:Hq; [discriminate|].
  destruct (pool_arguments self r) as [e'|c] eqn:Hc; [by inversion H|].
  simpl in H.
  destruct (ConnectionPool_raises (length w) c) eqn:Hr; [|discriminate].
  inversion H; subst. rewrite pools_built_snoc. repeat split; lia.
Qed.

End PoolFacts.

Lemma without_cp_lookup (a : gmap string value) k :
  without_cp a !! k = if startswith k "cp_" then None else a !! k.
Proof.
  unfold without_cp. destruct (startswith k "cp_") eqn:E.
  - apply map_lookup_filter_None. right. intros v _. simpl. by rewrite E.
  - destruct (a !! k) as [v|] eqn:Hk.
    + by apply map_lookup_filter_Some.
    + apply map_lookup_filter_None. by left.
Qed.

Lemma db_params_args self a :
  get (config self) "args" (VDict ∅) = ok (VDict a) →
  db_params self = ok (without_cp a).
Proof. intros H. unfold db_params. by rewrite H. Qed.

Lemma pool_arguments_built_inv nm d ds e r c :
  d !! "name" = Some (VStr (engine_module e)) →
  pool_arguments (built nm d ds e) r = ok c →
  c = pool_call_of (built nm d ds e) r.
Proof.
  intros Hn H. unfold pool_arguments in H.
  rewrite built_name, built_args in H by done.
  remember (args_of (config (built nm d ds e))) as a. simpl in H.
  destruct (bool_decide _); [discriminate|].
  inversion H. unfold pool_call_of. by rewrite <-Heqa.
Qed.

Lemma sample_master_built :
  __init__ "master" (VDict Sample.sqlite_5_5) [] = ok sample_master.
Proof. vm_compute. reflexivity. Qed.

(** A psycopg2 configuration keeps the pool sizes of the caller. *)
Example postgres_pool_sizes_kept :
  ∃ self, __init__ "master" (VDict Sample.postgres_5_10) [] = ok self
          ∧ args_of (config self) !! "cp_min" = Some (VInt 5)
          ∧ args_of (config self) !! "cp_max" = Some (VInt 10)
          ∧ args_of (config self) !! "check_same_thread" = None.
Proof.
  exists (built "master" Sample.postgres_5_10 [] PostgresEngine).
  repeat split; vm_compute; reflexivity.
Qed.

(** ** C2: the pool is created at most once *)

Section PoolOnce.

Variable ConnectionPool_raises : nat -> pool_call -> option exn.

Local Abbreviation get_pool := (get_pool ConnectionPool_raises).
Local Abbreviation get_pool_seq := (get_pool_seq ConnectionPool_raises).

(** C2: the pool of a DatabaseConnectionConfig is None after construction.
    The first call of get_pool builds a pool from the configuration (the
    driver name, the reactor handed in and the arguments), whenever the pool
    constructor accepts the call and does not raise; it is the only call to
    the constructor, and every later call, made one after the other with any
    reactors, returns this same pool and leaves the object and the history
    of external calls as they are. *)
Theorem pool_created_at_most_once nm db_config ds self :
  __init__ nm db_config ds = ok self →
  _pool self = None
  ∧ (∀ r w,
       args_of (config self) !! "cp_reactor" = None →
       ConnectionPool_raises (length w) (pool_call_of self r) = None →
       get_pool self r w
       = (ok (MkPool (length w) (pool_call_of self r)),
          with_pool self (Some (MkPool (length w) (pool_call_of self r))),
          w ++ [EvConnectionPool (pool_call_of self r) None]))
  ∧ (∀ r w p self' w',
       get_pool self r w = (ok p, self', w') →
       p = MkPool (length w) (pool_call_of self r)
       ∧ _pool self' = Some p
       ∧ pool_calls w' = S (pool_calls w)
       ∧ pools_built w' = S (pools_built w)
       ∧ ∀ rs w2,
           get_pool_seq self' rs w2 = (map (λ _, ok p) rs, self', w2)).
Proof.
  intros H. apply init_inv in H as (d & e & -> & Hn & Ha & ->).
  split; [done|]. split.
  - intros r w Hr Hc.
    rewrite (get_pool_fresh _ _ r w (pool_call_of (built nm d ds e) r)); [by rewrite Hc|done|].
    by apply pool_arguments_built.
  - intros r w p self' w' H.
    apply get_pool_ok in H as (Hp & _ & _ & [(Hq & _)|(_ & c & Hc & -> & ->)]);
      [discriminate|].
    apply pool_arguments_built_inv in Hc as ->; [|done].
    split; [done|]. split; [done|].
    rewrite pool_calls_snoc, pools_built_snoc.
    split; [done|]. split; [lia|].
    intros rs w2. by apply get_pool_seq_cached.
Qed.

(** ** C7: a failed construction is not remembered *)

(** C7: when the pool constructor raises inside get_pool, the exception
    reaches the caller and the object is left as it was, its pool still None
    (and so for any exception get_pool raises); the next call of get_pool
    therefore calls the constructor again, and returns and stores the pool
    when the constructor succeeds this time. *)
Theorem failed_construction_is_retried self :
  _pool self = None →
  (∀ r w e self' w',
     get_pool self r w = (raise e, self', w') → self' = self)
  ∧ (∀ r w c e,
       pool_arguments self r = ok c →
       ConnectionPool_raises (length w) c = Some e →
       get_pool self r w = (raise e, self, w ++ [EvConnectionPool c (Some e)]))
  ∧ (∀ r w c x self' w',
       pool_arguments self r = ok c →
       get_pool self r w = (x, self', w') →
       w' = w ++ [EvConnectionPool c (ConnectionPool_raises (length w) c)]
       ∧ (ConnectionPool_raises (length w) c = None →
          x = ok (MkPool (length w) c) ∧ _pool self' = Some (MkPool (length w) c))).
Proof.
  intros Hp. split; [|split].
  - intros r w e self' w' H. by apply get_pool_raises in H as [-> _].
  - intros r w c e Hc He. by rewrite (get_pool_fresh _ _ r w c), He.
  - intros r w c x self' w' Hc H.
    rewrite (get_pool_fresh _ _ r w c) in H by done.
    destruct (ConnectionPool_raises (length w) c); inversion H; subst; by split.
Qed.

End PoolOnce.

Lemma pool_created_at_most_once_witness :
  __init__ "master" (VDict Sample.sqlite_5_5) [] = ok sample_master
  ∧ _pool sample_master = None
  ∧ ∃ p self',
      get_pool Sample.pool_up sample_master 7 [] = (ok p, self', [EvConnectionPool (pool_call_of sample_master 7) None])
      ∧ get_pool_seq Sample.pool_up self' [8; 9] [EvConnectionPool (pool_call_of sample_master 7) None]
        = ([ok p; ok p], self', [EvConnectionPool (pool_call_of sample_master 7) None]).
Proof.
  destruct (pool_created_at_most_once Sample.pool_up _ _ _ _ sample_master_built)
    as (H0 & H1 & H2).
  split; [exact sample_master_built|]. split; [exact H0|].
  eexists _, _. split.
  - apply (H1 7 []); reflexivity.
  - apply (H2 7 [] _ _ _ (H1 7 [] eq_refl eq_refl)).
Defined.

Lemma failed_construction_is_retried_witness :
  _pool sample_master = None
  ∧ get_pool Sample.pool_down_once sample_master 7 []
    = (raise (DriverError 1), sample_master,
       [EvConnectionPool (pool_call_of sample_master 7) (Some (DriverError 1))])
  ∧ (get_pool Sample.pool_down_once sample_master 8
       [EvConnectionPool (pool_call_of sample_master 7) (Some (DriverError 1))]).1.1
     = ok (MkPool 1 (pool_call_of sample_master 8)).
Proof.
  destruct (failed_construction_is_retried Sample.pool_down_once sample_master eq_refl)
    as (_ & H1 & H2).
  split; [reflexivity|]. split.
  - apply (H1 7 [] (pool_call_of sample_master 7)); reflexivity.
  - destruct (get_pool Sample.pool_down_once sample_master 8 _) as [[x s'] w'] eqn:E.
    apply (H2 8 _ (pool_call_of sample_master 8)) in E as (_ & E); [|reflexivity].
    simpl. apply E. reflexivity.
Defined.

(** ** C5: bare connections *)

Lemma built_db_params nm d ds e :
  db_params (built nm d ds e)
  = ok (without_cp (args_of (config (built nm d ds e)))).
Proof. apply db_params_args, built_args. Qed.

Section BareConnection.

Variable connect_raises : nat -> string -> gmap string value -> option exn.

Local Abbreviation make_conn := (make_conn connect_raises).
Local Abbreviation connect := (connect connect_raises).

Lemma make_conn_args self a w :
  get (config self) "args" (VDict ∅) = ok (VDict a) →
  make_conn self w = connect (engine_module (engine_of self)) (without_cp a) w.
Proof. intros H. unfold make_conn. by rewrite (db_params_args self a). Qed.

(** C5: whatever the mapping args is, the parameters make_conn passes to the
    connect function of the engine's driver module are exactly the entries
    of args whose key does not start with cp_; cp_min, cp_max and cp_openfun
    are never among them.  Each call of make_conn calls connect once, and
    two calls return two connections. *)
Theorem make_conn_passes_args_without_cp self a :
  get (config self) "args" (VDict ∅) = ok (VDict a) →
  (∀ w, make_conn self w
        = connect (engine_module (engine_of self)) (without_cp a) w)
  ∧ (∀ k, without_cp a !! k = if startswith k "cp_" then None else a !! k)
  ∧ without_cp a !! "cp_min" = None
  ∧ without_cp a !! "cp_max" = None
  ∧ without_cp a !! "cp_openfun" = None
  ∧ (∀ w x w',
       make_conn self w = (x, w') →
       w' = w ++ [EvConnect (engine_module (engine_of self)) (without_cp a)
                            (connect_raises (length w)
                               (engine_module (engine_of self)) (without_cp a))])
  ∧ (∀ w c1 w1 c2 w2,
       make_conn self w = (ok c1, w1) →
       make_conn self w1 = (ok c2, w2) →
       conn_id c1 ≠ conn_id c2
       ∧ conn_params c1 = without_cp a ∧ conn_params c2 = without_cp a).
Proof.
  intros Ha.
  split; [intros w; by apply make_conn_args|].
  split; [apply without_cp_lookup|].
  rewrite !without_cp_lookup. do 3 (split; [done|]).
  split.
  - intros w x w'. rewrite (make_conn_args self a) by done.
    unfold connect. by intros [= _ <-].
  - intros w c1 w1 c2 w2. rewrite !(make_conn_args self a) by done.
    unfold connect. intros H1 H2.
    destruct (connect_raises (length w) _ _); [discriminate|].
    destruct (connect_raises (length w1) _ _); [discriminate|].
    inversion H1; subst. inversion H2; subst. simpl.
    rewrite length_app. simpl. split; [lia|done].
Qed.

End BareConnection.

Lemma make_conn_passes_args_without_cp_witness :
  get (config sample_master) "args" (VDict ∅)
  = ok (VDict (args_of (config sample_master)))
  ∧ ∃ c, make_conn Sample.driver_up sample_master []
         = (ok c, [EvConnect "sqlite3" (conn_params c) None])
         ∧ conn_params c !! "cp_max" = None
         ∧ conn_params c !! "database" = Some (VStr "homeserver.db").
Proof.
  destruct (make_conn_passes_args_without_cp Sample.driver_up sample_master
              (args_of (config sample_master)) eq_refl)
    as (H1 & H2 & _ & H3 & _).
  split; [reflexivity|].
  exists (MkConnection 0 "sqlite3" (without_cp (args_of (config sample_master)))).
  split; [apply H1|]. split; [exact H3|].
  simpl. rewrite H2. reflexivity.
Defined.

(** ** C8: the thread check reaches the driver *)

(** C8 as stated fails: for the sqlite3 configuration [Sample.sqlite_5_5]
    the parameters of the raw connect call hold the forced entry
    check_same_thread. *)
Lemma check_same_thread_reaches_connect :
  __init__ "master" (VDict Sample.sqlite_5_5) [] = ok sample_master
  ∧ ∃ c, make_conn Sample.driver_up sample_master []
         = (ok c, [EvConnect "sqlite3" (conn_params c) None])
         ∧ conn_params c !! "check_same_thread" = Some (VBool false).
Proof.
  split; [exact sample_master_built|].
  exists (MkConnection 0 "sqlite3" (without_cp (args_of (config sample_master)))).
  split.
  - by rewrite (make_conn_args _ sample_master (args_of (config sample_master))).
  - simpl. by rewrite without_cp_lookup.
Qed.

Section ThreadCheck.

Variable connect_raises : nat -> string -> gmap string value -> option exn.

Local Abbreviation make_conn := (make_conn connect_raises).
Local Abbreviation connect := (connect connect_raises).

(** C8, amended: make_conn strips exactly the entries of args whose key
    starts with cp_: no entry with such a key reaches the raw connect call,
    and every entry without the prefix does.  For an sqlite3 configuration
    the raw connect call receives neither cp_min nor cp_max nor cp_openfun
    nor any other cp_ key, but it does receive the forced check_same_thread,
    with the value False, together with every other entry of args. *)
Theorem make_conn_keeps_check_same_thread nm db_config ds self :
  __init__ nm db_config ds = ok self →
  engine_of self = Sqlite3Engine →
  ∃ params,
    db_params self = ok params
    ∧ (∀ w, make_conn self w = connect "sqlite3" params w)
    ∧ params !! "check_same_thread" = Some (VBool false)
    ∧ params !! "cp_min" = None
    ∧ params !! "cp_max" = None
    ∧ params !! "cp_openfun" = None
    ∧ (∀ k, startswith k "cp_" = false →
            params !! k = (sqlite3_forced ∪ args_of db_config) !! k)
    ∧ (∀ k, startswith k "cp_" = true → params !! k = None)
    ∧ params = without_cp (args_of (config self)).
Proof.
  intros H He. apply init_inv in H as (d & e & -> & Hn & Ha & ->).
  simpl in He. subst e.
  exists (without_cp (args_of (config (built nm d ds Sqlite3Engine)))).
  split; [apply built_db_params|].
  split.
  { intros w. unfold make_conn. by rewrite built_db_params. }
  rewrite !without_cp_lookup, args_of_built. simpl.
  split.
  { rewrite lookup_insert_ne by done. apply forced_single_connection. }
  do 3 (split; [done|]).
  split; [|split; [|done]].
  - intros k Hk. rewrite without_cp_lookup, Hk.
    rewrite lookup_insert_ne; [done|]. by intros <-.
  - intros k Hk. by rewrite without_cp_lookup, Hk.
Qed.

End ThreadCheck.

Lemma make_conn_keeps_check_same_thread_witness :
  __init__ "master" (VDict Sample.sqlite_5_5) [] = ok sample_master
  ∧ engine_of sample_master = Sqlite3Engine
  ∧ ∃ params,
      db_params sample_master = ok params
      ∧ params !! "check_same_thread" = Some (VBool false)
      ∧ params !! "cp_min" = None.
Proof.
  split; [exact sample_master_built|]. split; [reflexivity|].
  destruct (make_conn_keeps_check_same_thread Sample.driver_up _ _ _ _
              sample_master_built eq_refl)
    as (params & H1 & _ & H2 & H3 & _).
  exists params. split; [exact H1|]. split; [exact H2|exact H3].
Defined.

Lemma get_pool_built_ok ConnectionPool_raises nm d ds e r w p self' w' :
  d !! "name" = Some (VStr (engine_module e)) →
  get_pool ConnectionPool_raises (built nm d ds e) r w = (ok p, self', w') →
  p = MkPool (length w) (pool_call_of (built nm d ds e) r).
Proof.
  intros Hn H.
  apply get_pool_ok in H as (_ & _ & _ & [(Hq & _)|(_ & c & Hc & -> & _)]);
    [discriminate|].
  by apply pool_arguments_built_inv in Hc as ->.
Qed.

(** ** C4: the binding of cp_openfun *)

(** C4 as stated fails for bare connections: the configuration built from
    [Sample.sqlite_5_5] binds cp_openfun to the hook of the sqlite3 engine,
    yet the only external call make_conn makes is the connect call of the
    driver, and its parameters do not hold cp_openfun: the hook is neither
    handed to the driver nor called. *)
Lemma bare_connection_is_not_given_the_hook :
  __init__ "master" (VDict Sample.sqlite_5_5) [] = ok sample_master
  ∧ args_of (config sample_master) !! "cp_openfun"
    = Some (VMethod Sqlite3Engine)
  ∧ ∃ c, make_conn Sample.driver_up sample_master []
         = (ok c, [EvConnect "sqlite3" (conn_params c) None])
         ∧ conn_params c !! "cp_openfun" = None.
Proof.
  split; [exact sample_master_built|]. split; [done|].
  exists (MkConnection 0 "sqlite3" (without_cp (args_of (config sample_master)))).
  split.
  - by rewrite (make_conn_args _ sample_master (args_of (config sample_master))).
  - simpl. by rewrite without_cp_lookup.
Qed.

Section OpenHook.

Variable ConnectionPool_raises : nat -> pool_call -> option exn.
Variable connect_raises : nat -> string -> gmap string value -> option exn.

Local Abbreviation get_pool := (get_pool ConnectionPool_raises).
Local Abbreviation make_conn := (make_conn connect_raises).
Local Abbreviation connect := (connect connect_raises).

(** C4, amended: after every successful construction args["cp_openfun"] is
    the on_new_connection hook of the engine resolved from the
    configuration, whatever the caller supplied under that key.  get_pool
    leaves the configuration as it is, and hands the binding to the pool
    constructor among the keyword arguments, so that pooled connections are
    initialised through it; make_conn, which does not change the object
    either, strips it with the other cp_ keys and calls nothing but the
    driver's connect: a bare connection is not initialised by make_conn. *)
Theorem cp_openfun_is_the_engine_hook nm db_config ds self :
  __init__ nm db_config ds = ok self →
  create_engine db_config = ok (engine_of self)
  ∧ getitem (config self) "args" = ok (VDict (args_of (config self)))
  ∧ args_of (config self) !! "cp_openfun" = Some (VMethod (engine_of self))
  ∧ (∀ r w x self' w',
       get_pool self r w = (x, self', w') →
       config self' = config self ∧ engine_of self' = engine_of self)
  ∧ (∀ r w p self' w',
       get_pool self r w = (ok p, self', w') →
       connkw (pool_built_by p) !! "cp_openfun"
       = Some (VMethod (engine_of self)))
  ∧ ∃ params,
      (∀ w, make_conn self w
            = connect (engine_module (engine_of self)) params w)
      ∧ params !! "cp_openfun" = None.
Proof.
  intros H. pose proof H as H0.
  apply init_inv in H as (d & e & -> & Hn & Ha & ->).
  split.
  { unfold create_engine. simpl. rewrite Hn. by destruct e. }
  split.
  { rewrite args_of_built. simpl. by rewrite lookup_insert_eq. }
  split.
  { rewrite args_of_built. apply lookup_insert_eq. }
  split.
  { intros r w x self' w' H. destruct x as [err|p].
    - by apply get_pool_raises in H as [-> _].
    - by apply get_pool_ok in H as (_ & ? & ? & _). }
  split.
  { intros r w p self' w' H.
    rewrite (get_pool_built_ok _ nm d ds e r w p self' w' Hn H).
    unfold pool_call_of. cbn [pool_built_by connkw].
    rewrite args_of_built. apply lookup_insert_eq. }
  exists (without_cp (args_of (config (built nm d ds e)))).
  split.
  { intros w. unfold make_conn. by rewrite built_db_params. }
  by rewrite without_cp_lookup.
Qed.

End OpenHook.

Lemma cp_openfun_is_the_engine_hook_witness :
  __init__ "master" (VDict Sample.postgres_own_hook) []
  = ok (built "master" Sample.postgres_own_hook [] PostgresEngine)
  ∧ args_of (config (built "master" Sample.postgres_own_hook [] PostgresEngine))
    !! "cp_openfun" = Some (VMethod PostgresEngine).
Proof.
  assert (H : __init__ "master" (VDict Sample.postgres_own_hook) []
              = ok (built "master" Sample.postgres_own_hook [] PostgresEngine))
    by (vm_compute; reflexivity).
  split; [exact H|].
  exact (proj1 (proj2 (proj2 (cp_openfun_is_the_engine_hook
                                Sample.pool_up Sample.driver_up _ _ _ _ H)))).
Defined.

(** ** C3: unsupported backends *)

(** C3 as stated fails twice: without a name the constructor raises
    KeyError, and read_config raises RuntimeError, not ConfigError, for the
    unsupported identifier mysql. *)
Lemma unsupported_backend_is_not_always_ConfigError :
  __init__ "master" (VDict {[ "args" := VDict ∅ ]}) []
  = raise (KeyError "name")
  ∧ read_config Sample.parse_size Sample.resolve_path Sample.abspath_other
      (VDict {[ "database" := VDict {[ "name" := VStr "mysql" ]} ]})
    = raise (RuntimeError (VStr "mysql")).
Proof. split; vm_compute; reflexivity. Qed.

Section UnsupportedBackend.

Variable parse_size : value -> result Z.
Variable resolve_path : string -> string.
Variable abspath_other : value -> result value.

Local Abbreviation read_config :=
  (read_config parse_size resolve_path abspath_other).

(** C3, amended: for every backend identifier [n] other than sqlite3 and
    psycopg2, the constructor fails with ConfigError when the configuration
    holds [n] under name, and read_config fails with RuntimeError (not
    ConfigError) when the database block holds [n] under name, or holds no
    name and [n] is None, once the event cache size has parsed.  With no
    name at all the constructor fails with KeyError.  Neither falls back to
    a default backend. *)
Theorem unsupported_backend_is_fatal n :
  n ≠ VStr "sqlite3" →
  n ≠ VStr "psycopg2" →
  (∀ nm d ds,
     d !! "name" = Some n →
     __init__ nm (VDict d) ds = raise (ConfigError n))
  ∧ (∀ nm d ds,
       d !! "name" = None →
       __init__ nm (VDict d) ds = raise (KeyError "name"))
  ∧ (∀ cfg d size,
       cfg !! "database" = Some (VDict d) →
       default VNone (d !! "name") = n →
       parse_size (default (VStr "10K") (cfg !! "event_cache_size")) = ok size →
       read_config (VDict cfg) = raise (RuntimeError n)).
Proof.
  intros H1 H2.
  apply py_eq_str_neq in H1. apply py_eq_str_neq in H2.
  split; [|split].
  - intros nm d ds Hn. unfold __init__. simpl. rewrite Hn. simpl.
    by rewrite H1, H2.
  - intros nm d ds Hn. unfold __init__. simpl. by rewrite Hn.
  - intros cfg d size Hd Hn Hs.
    rewrite (read_config_database _ _ _ cfg d size Hd Hs), Hn.
    by rewrite H1, H2.
Qed.

End UnsupportedBackend.

Lemma unsupported_backend_is_fatal_witness :
  VStr "mysql" ≠ VStr "sqlite3"
  ∧ VStr "mysql" ≠ VStr "psycopg2"
  ∧ __init__ "master" (VDict {[ "name" := VStr "mysql" ]}) []
    = raise (ConfigError (VStr "mysql")).
Proof.
  assert (H1 : VStr "mysql" ≠ VStr "sqlite3") by discriminate.
  assert (H2 : VStr "mysql" ≠ VStr "psycopg2") by discriminate.
  split; [exact H1|]. split; [exact H2|].
  apply (proj1 (unsupported_backend_is_fatal
                  Sample.parse_size Sample.resolve_path Sample.abspath_other
                  (VStr "mysql") H1 H2)).
  reflexivity.
Defined.

(** ** C6: the database path *)

Section DatabasePath.

Variable parse_size : value -> result Z.
Variable resolve_path : string -> string.
Variable abspath_other : value -> result value.

Local Abbreviation set_databasepath :=
  (set_databasepath resolve_path abspath_other).
Local Abbreviation read_config :=
  (read_config parse_size resolve_path abspath_other).
Local Abbreviation stored_path := (stored_path resolve_path).

(** The configuration [read_config] leaves is a dictionary, whose args are a
    dictionary when its backend is sqlite3. *)
Lemma read_config_shape cfg self :
  read_config cfg = ok self →
  ∃ d, database_config self = VDict d ∧
       (d !! "name" = Some (VStr "sqlite3") → ∃ a, d !! "args" = Some (VDict a)).
Proof.
  unfold read_config. intros H.
  destruct (get cfg "event_cache_size" (VStr "10K")) as [|ev]; [discriminate|].
  simpl in H. destruct (parse_size ev) as [|size]; [discriminate|].
  simpl in H. destruct (get cfg "database" VNone) as [|c0]; [discriminate|].
  simpl in H.
  set (c := if is_None c0 then VDict default_database_config else c0) in H.
  destruct c as [| | | | | |d] eqn:Hc; try discriminate.
  simpl in H.
  destruct (py_eq_str (default VNone (d !! "name")) "psycopg2") eqn:Hpg.
  - simpl in H.
    destruct (get cfg "database_path" VNone) as [|path]; [discriminate|].
    simpl in H.
    apply py_eq_str_spec in Hpg.
    assert (Hns : py_eq_str (default VNone (d !! "name")) "sqlite3" = false)
      by (by rewrite Hpg).
    unfold set_databasepath in H. simpl in H.
    destruct (if negb (py_eq_str path ":memory:") then _ else _);
      [discriminate|].
    simpl in H. rewrite Hns in H. inversion H; subst. simpl.
    exists d. split; [done|]. intros Hn. rewrite Hn in Hpg. discriminate.
  - destruct (py_eq_str (default VNone (d !! "name")) "sqlite3") eqn:Hsq;
      [|discriminate].
    destruct (force_single_connection (VDict d)) as [|c1] eqn:Hf;
      [discriminate|].
    unfold force_single_connection in Hf. simpl in Hf.
    assert (∃ a, c1 = VDict (<["args" := VDict a]> d)) as [a ->].
    { destruct (d !! "args") as [[]|]; simpl in Hf; try discriminate;
        inversion Hf; subst; [eauto|].
      rewrite insert_insert_eq. eauto. }
    simpl in H.
    destruct (get cfg "database_path" VNone) as [|path]; [discriminate|].
    simpl in H.
    eapply set_databasepath_args in H as (a' & Hd' & _);
      [|done|apply lookup_insert_eq].
    rewrite insert_insert_eq in Hd'.
    exists (<["args" := VDict a']> d). split; [done|]. intros _.
    exists a'. apply lookup_insert_eq.
Qed.

(** C6: with a database path that is not None, set_databasepath on an
    sqlite3 configuration overwrites args["database"] with that path
    resolved to an absolute path, except for the path :memory:, which is
    stored as it is; on a psycopg2 configuration it changes nothing and
    raises nothing.  With the path None the configuration is left as it
    is. *)
Theorem set_databasepath_overrides_sqlite3_path self d :
  database_config self = VDict d →
  (∀ a p,
     d !! "name" = Some (VStr "sqlite3") →
     d !! "args" = Some (VDict a) →
     set_databasepath self (VStr p)
     = ok {| event_cache_size := event_cache_size self;
             database_config :=
               VDict (<["args" := VDict (<["database" := VStr (stored_path p)]> a)]> d) |})
  ∧ stored_path ":memory:" = ":memory:"
  ∧ (∀ p, p ≠ ":memory:" → stored_path p = resolve_path p)
  ∧ (∀ p,
       d !! "name" = Some (VStr "psycopg2") →
       set_databasepath self (VStr p) = ok self)
  ∧ set_databasepath self VNone = ok self.
Proof.
  intros Hd. split; [|split; [|split; [|split]]].
  - intros a p Hn Ha. by apply set_databasepath_sqlite3.
  - done.
  - intros p Hp. unfold stored_path.
    destruct (String.eqb p ":memory:") eqn:E; [|done].
    by apply String.eqb_eq in E.
  - intros p Hn. apply set_databasepath_not_sqlite3 with (d := d); [done|].
    by rewrite Hn.
  - by apply set_databasepath_None with (d := d).
Qed.

End DatabasePath.

Lemma set_databasepath_overrides_sqlite3_path_witness :
  read_config Sample.parse_size Sample.resolve_path Sample.abspath_other
    (VDict {[ "database" := VDict Sample.sqlite_5_5 ]})
  = ok sample_database_config
  ∧ ∃ self',
      set_databasepath Sample.resolve_path Sample.abspath_other
        sample_database_config (VStr "synapse.db") = ok self'
      ∧ args_of (database_config self') !! "database"
        = Some (VStr "/srv/synapse/synapse.db")
      ∧ args_of (database_config self') !! "cp_max" = Some (VInt 1).
Proof.
  split; [vm_compute; reflexivity|].
  eexists. split.
  - apply (proj1 (set_databasepath_overrides_sqlite3_path
                    Sample.resolve_path Sample.abspath_other
                    sample_database_config _ eq_refl));
      reflexivity.
  - split; reflexivity.
Defined.

(** ** C9: the default database *)

(** C9 as stated fails: without a database block (and without a database
    path) read_config leaves an sqlite3 configuration whose args hold the
    forced pooling parameters and no database path at all. *)
Lemma default_database_has_no_path :
  ∃ self,
    read_config Sample.parse_size Sample.resolve_path Sample.abspath_other
      (VDict ∅) = ok self
    ∧ database_config self
      = VDict {[ "name" := VStr "sqlite3"; "args" := VDict sqlite3_forced ]}
    ∧ args_of (database_config self) !! "database" = None.
Proof.
  eexists. split; [vm_compute; reflexivity|].
  split; vm_compute; reflexivity.
Qed.

Lemma default_database_config_forced :
  force_single_connection (VDict default_database_config)
  = ok (VDict (<["args" := VDict sqlite3_forced]> default_database_config)).
Proof.
  rewrite force_single_connection_dict by done.
  replace (args_of (VDict default_database_config)) with (∅ : gmap string value)
    by done.
  by rewrite map_union_empty.
Qed.

Lemma os_path_join_relative a b :
  startswith b "/" = false →
  a ≠ EmptyString →
  ends_with_slash a = false →
  os_path_join a b = a +:+ "/" +:+ b.
Proof.
  intros Hb Ha Hs. unfold os_path_join. rewrite Hb, Hs.
  destruct (String.eqb a EmptyString) eqn:E; [|done].
  by apply String.eqb_eq in E.
Qed.

Section DefaultDatabase.

Variable parse_size : value -> result Z.
Variable resolve_path : string -> string.
Variable abspath_other : value -> result value.
Variable dump_indented : value -> result string.

Local Abbreviation read_config :=
  (read_config parse_size resolve_path abspath_other).
Local Abbreviation stored_path := (stored_path resolve_path).
Local Abbreviation generate_config_section :=
  (generate_config_section dump_indented).

(** C9, amended: when the input configuration holds no database block,
    read_config synthesizes a single sqlite3 configuration whose args are
    the forced pooling parameters; it holds a database path only when the
    configuration gives one under database_path, and then that path,
    resolved.  The path homeserver.db under the data directory is what
    generate_config_section writes into the database block of the generated
    configuration text when it is given no database configuration. *)
Theorem default_database_is_sqlite3 cfg size :
  default VNone (cfg !! "database") = VNone →
  parse_size (default (VStr "10K") (cfg !! "event_cache_size")) = ok size →
  (default VNone (cfg !! "database_path") = VNone →
   read_config (VDict cfg)
   = ok {| event_cache_size := size;
           database_config :=
             VDict (<["args" := VDict sqlite3_forced]> default_database_config) |})
  ∧ (∀ p,
       cfg !! "database_path" = Some (VStr p) →
       read_config (VDict cfg)
       = ok {| event_cache_size := size;
               database_config :=
                 VDict (<["args" := VDict (<["database" := VStr (stored_path p)]>
                                             sqlite3_forced)]>
                          default_database_config) |})
  ∧ (∀ data_dir_path database_conf,
       truthy database_conf = false →
       generate_config_section data_dir_path database_conf
       = ok (config_section
               (default_database_conf
                  (os_path_join data_dir_path "homeserver.db"))))
  ∧ (∀ data_dir_path,
       data_dir_path ≠ EmptyString →
       ends_with_slash data_dir_path = false →
       os_path_join data_dir_path "homeserver.db"
       = data_dir_path +:+ "/homeserver.db").
Proof.
  intros Hd Hs.
  assert (Hr : ∀ path,
             default VNone (cfg !! "database_path") = path →
             read_config (VDict cfg)
             = set_databasepath resolve_path abspath_other
                 {| event_cache_size := size;
                    database_config :=
                      VDict (<["args" := VDict sqlite3_forced]> default_database_config) |}
                 path).
  { intros path Hp. unfold read_config. simpl.
    rewrite Hs, Hd. simpl. rewrite default_database_config_forced.
    simpl. by rewrite Hp. }
  split; [|split; [|split]].
  - intros Hp. rewrite (Hr VNone Hp).
    by apply set_databasepath_None
      with (d := <["args" := VDict sqlite3_forced]> default_database_config).
  - intros p Hp. rewrite (Hr (VStr p)) by (by rewrite Hp).
    rewrite (set_databasepath_sqlite3 _ _ _
               (<["args" := VDict sqlite3_forced]> default_database_config)
               sqlite3_forced p); [|done..].
    by rewrite insert_insert_eq.
  - intros dir conf Ht. unfold generate_config_section. by rewrite Ht.
  - intros dir Hne Hsl. by apply (os_path_join_relative dir "homeserver.db").
Qed.

End DefaultDatabase.

Lemma default_database_is_sqlite3_witness :
  default VNone ((∅ : gmap string value) !! "database") = VNone
  ∧ Sample.parse_size (default (VStr "10K")
                         ((∅ : gmap string value) !! "event_cache_size"))
    = ok 10240%Z
  ∧ read_config Sample.parse_size Sample.resolve_path Sample.abspath_other
      (VDict ∅)
    = ok {| event_cache_size := 10240;
            database_config :=
              VDict (<["args" := VDict sqlite3_forced]> default_database_config) |}
  ∧ os_path_join "/var/lib/app" "homeserver.db" = "/var/lib/app/homeserver.db".
Proof.
  assert (Hd : default VNone ((∅ : gmap string value) !! "database") = VNone)
    by reflexivity.
  assert (Hs : Sample.parse_size
                 (default (VStr "10K")
                    ((∅ : gmap string value) !! "event_cache_size"))
               = ok 10240%Z) by reflexivity.
  destruct (default_database_is_sqlite3
              Sample.parse_size Sample.resolve_path Sample.abspath_other
              Sample.dump_indented ∅ 10240%Z Hd Hs)
    as (H1 & _ & _ & H2).
  split; [exact Hd|]. split; [exact Hs|].
  split; [apply H1; reflexivity|].
  apply H2; [discriminate|reflexivity].
Defined.

(** ** C10: calls of get_pool that overlap *)

(** C10 as stated fails: two calls of get_pool on the same object, each of
    which runs its test before the other has stored its pool, call the pool
    constructor twice; the callers receive two different pools when the
    first returns before the second stores, and the object keeps the second
    pool. *)
Lemma overlapping_calls_build_two_pools :
  pools_built (sys_world sample_race) = 2
  ∧ returned sample_race 0
    = Some (ok (Some (MkPool 0 (pool_call_of sample_master 7))))
  ∧ returned sample_race 1
    = Some (ok (Some (MkPool 1 (pool_call_of sample_master 7))))
  ∧ _pool (sys_self sample_race)
    = Some (MkPool 1 (pool_call_of sample_master 7))
  ∧ pools_built (sys_world sample_race_late_return) = 2.
Proof. repeat split; vm_compute; reflexivity. Qed.

Section Overlap.

Variable ConnectionPool_raises : nat -> pool_call -> option exn.

Local Abbreviation get_pool := (get_pool ConnectionPool_raises).
Local Abbreviation step := (step ConnectionPool_raises).
Local Abbreviation run := (run ConnectionPool_raises).

Lemma step_missing i s : sys_calls s !! i = None → step i s = s.
Proof. intros H. unfold step. by rewrite H. Qed.

Lemma step_returned i s r x :
  sys_calls s !! i = Some (MkCall r (Returned x)) → step i s = s.
Proof.
  intros H. unfold step. rewrite H. simpl.
  rewrite list_insert_id by done. by destruct s.
Qed.

Lemma step_test i self w calls r :
  calls !! i = Some (MkCall r AtTest) →
  step i (MkSystem self w calls)
  = MkSystem self w
      (<[i := MkCall r (match _pool self with
                        | None => AtBuild
                        | Some _ => AtReturn
                        end)]> calls).
Proof. intros H. unfold step. simpl. by rewrite H. Qed.

Lemma step_return i self w calls r :
  calls !! i = Some (MkCall r AtReturn) →
  step i (MkSystem self w calls)
  = MkSystem self w (<[i := MkCall r (Returned (ok (_pool self)))]> calls).
Proof. intros H. unfold step. simpl. by rewrite H. Qed.

Lemma step_build i self w calls r :
  calls !! i = Some (MkCall r AtBuild) →
  step i (MkSystem self w calls)
  = match pool_arguments self r with
    | inl e => MkSystem self w (<[i := MkCall r (Returned (raise e))]> calls)
    | inr a =>
        match ConnectionPool_raises (length w) a with
        | Some e =>
            MkSystem self (w ++ [EvConnectionPool a (Some e)])
                     (<[i := MkCall r (Returned (raise e))]> calls)
        | None =>
            MkSystem (with_pool self (Some (MkPool (length w) a)))
                     (w ++ [EvConnectionPool a None])
                     (<[i := MkCall r AtReturn]> calls)
        end
    end.
Proof.
  intros H. unfold step, step_call, ConnectionPool. simpl. rewrite H. simpl.
  destruct (pool_arguments self r) as [e|a]; [done|]. simpl.
  by destruct (ConnectionPool_raises (length w) a).
Qed.

Lemma run_thrice i s : run [i; i; i] s = step i (step i (step i s)).
Proof. done. Qed.

(** A call that runs alone, from its test to its return, is a call of
    [get_pool]. *)
Lemma serial_call_is_get_pool i s r :
  sys_calls s !! i = Some (MkCall r AtTest) →
  run [i; i; i] s
  = let '(x, self, w) := get_pool (sys_self s) r (sys_world s) in
    MkSystem self w (<[i := MkCall r (Returned (as_returned x))]> (sys_calls s)).
Proof.
  intros H. pose proof (lookup_lt_Some _ _ _ H) as Hi.
  destruct s as [self w calls]. simpl in H, Hi.
  change (run [i; i; i] (MkSystem self w calls))
    with (step i (step i (step i (MkSystem self w calls)))).
  cbn [sys_self sys_world sys_calls].
  assert (Hlook : ∀ c, <[i := c]> calls !! i = Some c)
    by (intros c; by apply list_lookup_insert_eq).
  rewrite (step_test i self w calls r H).
  unfold get_pool, ConnectionPool.
  destruct (_pool self) as [p|] eqn:Hp.
  - rewrite (step_return i self w _ r (Hlook _)), Hp, list_insert_insert_eq.
    rewrite (step_returned i _ r (ok (Some p))); [done|]. apply Hlook.
  - rewrite (step_build i self w _ r (Hlook _)).
    destruct (pool_arguments self r) as [e|a]; simpl.
    + rewrite list_insert_insert_eq.
      rewrite (step_returned i _ r (raise e)); [done|]. apply Hlook.
    + destruct (ConnectionPool_raises (length w) a) as [e|]; simpl.
      * rewrite list_insert_insert_eq.
        rewrite (step_returned i _ r (raise e)); [done|]. apply Hlook.
      * rewrite list_insert_insert_eq.
        rewrite (step_return i _ _ _ r (Hlook _)). simpl.
        by rewrite list_insert_insert_eq.
Qed.

Lemma returned_insert s self w i r x j :
  i < length (sys_calls s) →
  returned (MkSystem self w (<[i := MkCall r (Returned x)]> (sys_calls s))) j
  = if decide (i = j) then Some x else returned s j.
Proof.
  intros Hi. unfold returned. simpl. destruct (decide (i = j)) as [->|Hne].
  - by rewrite list_lookup_insert_eq.
  - by rewrite list_lookup_insert_ne.
Qed.

(** One call running alone keeps the system quiescent, builds a pool only
    when the object holds none, and has returned at the end. *)
Lemma serial_call_preserves base i s :
  quiescent s →
  at_most_one_built base s →
  quiescent (run [i; i; i] s)
  ∧ at_most_one_built base (run [i; i; i] s)
  ∧ length (sys_calls (run [i; i; i] s)) = length (sys_calls s)
  ∧ (i < length (sys_calls s) → is_Some (returned (run [i; i; i] s) i))
  ∧ (∀ j, is_Some (returned s j) → is_Some (returned (run [i; i; i] s) j)).
Proof.
  intros Hq Hb.
  destruct (sys_calls s !! i) as [[r pc]|] eqn:Hi.
  2:{ rewrite run_thrice, !(step_missing i s Hi). repeat split; try done.
      intros Hlt. apply lookup_lt_is_Some_2 in Hlt as [? Hlt]. congruence. }
  pose proof (lookup_lt_Some _ _ _ Hi) as Hlt.
  destruct (Hq _ _ Hi) as [Hpc|(x & Hpc & Hx)]; simpl in Hpc; subst pc.
  2:{ rewrite run_thrice, !(step_returned i s r x Hi). repeat split; try done.
      intros _. unfold returned. rewrite Hi. eauto. }
  rewrite (serial_call_is_get_pool i s r Hi).
  destruct (get_pool (sys_self s) r (sys_world s)) as [[x self'] w'] eqn:E.
  assert (Hkeep : ∀ p, x = ok p → _pool self' = Some p
                       ∧ (is_Some (_pool (sys_self s)) → self' = sys_self s)).
  { intros p ->. apply get_pool_ok in E as (Hp & _ & _ & [(_ & -> & _)|(Hn & _)]).
    - done.
    - split; [done|]. rewrite Hn. by intros [? ?]. }
  assert (Hraise : ∀ e, x = raise e → self' = sys_self s).
  { intros e ->. by apply get_pool_raises in E as (-> & _). }
  split; [|split; [|split; [|split]]].
  - intros j c Hj. simpl in *.
    apply list_lookup_insert_Some in Hj as [(<- & <- & _)|(Hne & Hj)].
    + right. exists (as_returned x). split; [done|].
      intros p Hp. destruct x as [e|q]; [discriminate|].
      simpl in Hp. inversion Hp; subst.
      destruct (Hkeep q eq_refl) as [-> _]. by split.
    + destruct (Hq _ _ Hj) as [Hpc|(y & Hpc & Hy)]; [by left|].
      right. exists y. split; [done|]. intros p Hp.
      destruct (Hy p Hp) as [Hsome ->]. split; [done|].
      destruct x as [e|q].
      * by rewrite (Hraise e eq_refl).
      * destruct (Hkeep q eq_refl) as [_ Hs]. by rewrite Hs.
  - unfold at_most_one_built in *. simpl.
    destruct x as [e|q].
    + apply get_pool_raises in E as (-> & Hn & ->). left.
      destruct Hb as [[_ Hb]|[[? Hb] _]]; [done|congruence].
    + apply get_pool_ok in E as (Hp & _ & _ & [(Hq' & -> & ->)|(Hn & c & _ & _ & ->)]).
      * right. destruct Hb as [[Hb _]|[_ Hb]]; [congruence|]. by rewrite Hq'.
      * right. rewrite Hp, pools_built_snoc.
        destruct Hb as [[_ Hb]|[[? Hb] _]]; [|congruence].
        split; [by eexists|lia].
  - simpl. apply length_insert.
  - intros _. rewrite returned_insert by done. by rewrite decide_True.
  - intros j Hj. rewrite returned_insert by done.
    destruct (decide (i = j)); [by eexists|done].
Qed.

Lemma run_serial_cons i order s :
  run (serial (i :: order)) s = run (serial order) (run [i; i; i] s).
Proof. done. Qed.

Lemma serial_calls_preserve base order s :
  quiescent s →
  at_most_one_built base s →
  quiescent (run (serial order) s)
  ∧ at_most_one_built base (run (serial order) s)
  ∧ (∀ i, (i ∈ order ∨ is_Some (returned s i)) →
          i < length (sys_calls s) →
          is_Some (returned (run (serial order) s) i)).
Proof.
  revert s. induction order as [|i order IH]; intros s Hq Hb.
  - split; [done|]. split; [done|].
    intros i [Hi|Hi] _; [|done]. by apply not_elem_of_nil in Hi.
  - rewrite run_serial_cons.
    destruct (serial_call_preserves base i s Hq Hb) as (Hq' & Hb' & Hl & Hi & Hk).
    destruct (IH _ Hq' Hb') as (Hq'' & Hb'' & Hr).
    split; [done|]. split; [done|].
    intros j Hj Hlt. apply Hr; [|by rewrite Hl].
    destruct Hj as [Hj|Hj]; [|right; by apply Hk].
    apply elem_of_cons in Hj as [->|Hj]; [right; by apply Hi|by left].
Qed.

(** C10, amended: get_pool takes no lock, and calls that overlap can each
    build a pool.  When the callers serialize their calls, each call
    running from its test to its return before the next one starts, at most
    one pool is built whatever the number of calls, their order and their
    reactors, every caller that is returned a pool is returned the one pool
    the object holds, and every call made has returned. *)
Theorem serial_calls_build_one_pool self w reactors order :
  pools_built (sys_world (run (serial order) (MkSystem self w (calls_of reactors))))
  ≤ S (pools_built w)
  ∧ (∀ i j p q,
       returned (run (serial order) (MkSystem self w (calls_of reactors))) i
       = Some (ok p) →
       returned (run (serial order) (MkSystem self w (calls_of reactors))) j
       = Some (ok q) →
       p = q ∧ is_Some p
       ∧ p = _pool (sys_self (run (serial order)
                                (MkSystem self w (calls_of reactors)))))
  ∧ (∀ i, i ∈ order → i < length reactors →
          is_Some (returned (run (serial order)
                               (MkSystem self w (calls_of reactors))) i)).
Proof.
  assert (Hq : quiescent (MkSystem self w (calls_of reactors))).
  { intros i c Hi. left. unfold calls_of in Hi. simpl in Hi.
    rewrite list_lookup_fmap in Hi.
    destruct (reactors !! i); simpl in Hi; [|discriminate]. by inversion Hi. }
  assert (Hb : at_most_one_built (pools_built w)
                 (MkSystem self w (calls_of reactors))).
  { unfold at_most_one_built. simpl.
    destruct (_pool self); [right; split; [by eexists|lia]|by left]. }
  destruct (serial_calls_preserve _ order _ Hq Hb) as (Hq' & Hb' & Hr).
  split; [|split].
  - destruct Hb' as [[_ ->]|[_ ?]]; lia.
  - intros i j p q Hi Hj.
    assert (Hres : ∀ k x, returned (run (serial order)
                                      (MkSystem self w (calls_of reactors))) k
                          = Some (ok x) →
                          is_Some x ∧ x = _pool (sys_self (run (serial order)
                                      (MkSystem self w (calls_of reactors))))).
    { intros k x Hk. unfold returned in Hk.
      destruct (sys_calls _ !! k) as [[r pc]|] eqn:Hc; [|discriminate].
      destruct (Hq' _ _ Hc) as [Hpc|(y & Hpc & Hy)]; simpl in Hpc; subst pc;
        [discriminate|].
      inversion Hk; subst. by apply Hy. }
    destruct (Hres _ _ Hi) as [Hs ->]. destruct (Hres _ _ Hj) as [_ ->].
    done.
  - intros i Hi Hlt. apply Hr; [by left|].
    simpl. unfold calls_of. by rewrite length_map.
Qed.

End Overlap.

(** * Further properties of the module *)

(** ** Construction *)

(** X1: the constructor returns an object exactly when the configuration is
    a dictionary whose name is sqlite3 or psycopg2 and whose args is a
    dictionary (or, for sqlite3 only, absent); the object then holds the
    label and the data stores as given, the engine of that name, the
    normalized configuration and no pool. *)
Theorem init_succeeds_iff nm db_config ds self :
  __init__ nm db_config ds = ok self
  ↔ ∃ d e, db_config = VDict d
           ∧ d !! "name" = Some (VStr (engine_module e))
           ∧ args_usable e d
           ∧ self = built nm d ds e.
Proof.
  split.
  - apply init_inv.
  - intros (d & e & -> & Hn & Ha & ->). by apply init_built.
Qed.

(** X2: how the constructor fails other than on an unsupported name.  A
    configuration that is not a dictionary raises TypeError; psycopg2
    without args raises KeyError (line 54); args that is not a dictionary
    raises AttributeError for sqlite3 (the update of line 45) and TypeError
    for psycopg2 (the assignment of line 54). *)
Theorem init_failures nm ds :
  (∀ v, (∀ d, v ≠ VDict d) → __init__ nm v ds = raise TypeError)
  ∧ (∀ d, d !! "name" = Some (VStr "psycopg2") →
          d !! "args" = None →
          __init__ nm (VDict d) ds = raise (KeyError "args"))
  ∧ (∀ d a, d !! "name" = Some (VStr "sqlite3") →
            d !! "args" = Some a → (∀ x, a ≠ VDict x) →
            __init__ nm (VDict d) ds = raise AttributeError)
  ∧ (∀ d a, d !! "name" = Some (VStr "psycopg2") →
            d !! "args" = Some a → (∀ x, a ≠ VDict x) →
            __init__ nm (VDict d) ds = raise TypeError).
Proof.
  split; [|split; [|split]].
  - intros v Hv. destruct v; try done. by destruct (Hv d).
  - intros d Hn Ha. unfold __init__, create_engine. simpl.
    rewrite Hn. simpl. rewrite Hn. simpl. by rewrite Ha.
  - intros d a Hn Ha Hx. unfold __init__, force_single_connection. simpl.
    rewrite Hn. simpl. rewrite Ha. simpl.
    destruct a; try done. by destruct (Hx d0).
  - intros d a Hn Ha Hx. unfold __init__, create_engine. simpl.
    rewrite Hn. simpl. rewrite Hn. simpl. rewrite Ha. simpl.
    destruct a; try done. by destruct (Hx d0).
Qed.

Lemma init_failures_witness :
  __init__ "master" (VDict {[ "name" := VStr "psycopg2" ]}) []
  = raise (KeyError "args")
  ∧ __init__ "master"
      (VDict {[ "name" := VStr "sqlite3"; "args" := VNone ]}) []
    = raise AttributeError.
Proof.
  destruct (init_failures "master" []) as (_ & H1 & H2 & _).
  split.
  - apply H1; reflexivity.
  - apply (H2 _ VNone); [reflexivity|reflexivity|discriminate].
Defined.

(** X3: for psycopg2 the constructor forces nothing: the arguments of the
    object are those of the caller with cp_openfun bound to the hook of the
    engine, so the pool sizes the caller chose are kept. *)
Theorem postgres_args_are_kept nm d ds a :
  d !! "name" = Some (VStr "psycopg2") →
  d !! "args" = Some (VDict a) →
  ∃ self,
    __init__ nm (VDict d) ds = ok self
    ∧ engine_of self = PostgresEngine
    ∧ args_of (config self) = <["cp_openfun" := VMethod PostgresEngine]> a
    ∧ ∀ k, k ≠ "cp_openfun" → args_of (config self) !! k = a !! k.
Proof.
  intros Hn Ha. exists (built nm d ds PostgresEngine).
  split; [apply init_built; [done|by unfold args_usable; rewrite Ha]|].
  split; [done|].
  assert (Hargs : args_of (config (built nm d ds PostgresEngine))
                  = <["cp_openfun" := VMethod PostgresEngine]> a).
  { rewrite args_of_built. simpl. unfold args_of. by rewrite Ha. }
  split; [done|].
  intros k Hk. rewrite Hargs. by rewrite lookup_insert_ne.
Qed.

Lemma postgres_args_are_kept_witness :
  ∃ self,
    __init__ "master" (VDict Sample.postgres_5_10) [] = ok self
    ∧ args_of (config self) !! "cp_min" = Some (VInt 5)
    ∧ args_of (config self) !! "cp_max" = Some (VInt 10).
Proof.
  destruct (postgres_args_are_kept "master" Sample.postgres_5_10 []
              {[ "user" := VStr "synapse"; "cp_min" := VInt 5;
                 "cp_max" := VInt 10 ]} eq_refl eq_refl)
    as (self & Hi & _ & _ & Hk).
  exists self. split; [exact Hi|].
  split; (rewrite Hk; [reflexivity|discriminate]).
Defined.

(** ** Normalization *)

Lemma forced_absorbed a : single_connection a → sqlite3_forced ∪ a = a.
Proof.
  intros (H1 & H2 & H3). apply map_eq. intros k.
  destruct (decide (k = "cp_min")) as [->|N1].
  { rewrite H1. by apply lookup_union_Some_l. }
  destruct (decide (k = "cp_max")) as [->|N2].
  { rewrite H2. by apply lookup_union_Some_l. }
  destruct (decide (k = "check_same_thread")) as [->|N3].
  { rewrite H3. by apply lookup_union_Some_l. }
  apply forced_other. by apply other_not_forced.
Qed.

(** X4: the normalization statement is idempotent: run on a configuration
    it has already normalized, it succeeds and changes nothing. *)
Theorem force_single_connection_idempotent c c' :
  force_single_connection c = ok c' →
  force_single_connection c' = ok c'.
Proof.
  intros H. destruct c as [| | | | | |d]; try discriminate.
  assert (Ha : args_absent_or_dict d = true).
  { unfold force_single_connection, args_absent_or_dict in *. simpl in H.
    by destruct (d !! "args") as [[]|]. }
  rewrite force_single_connection_dict in H by done.
  inversion H; subst.
  rewrite force_single_connection_dict
    by (unfold args_absent_or_dict; by rewrite lookup_insert_eq).
  rewrite args_of_insert, insert_insert_eq.
  by rewrite (forced_absorbed _ (forced_single_connection _)).
Qed.

Lemma force_single_connection_idempotent_witness :
  force_single_connection (VDict Sample.sqlite_5_5)
  = ok (database_config sample_database_config)
  ∧ force_single_connection (database_config sample_database_config)
    = ok (database_config sample_database_config).
Proof.
  assert (H : force_single_connection (VDict Sample.sqlite_5_5)
              = ok (database_config sample_database_config))
    by (vm_compute; reflexivity).
  split; [exact H|].
  exact (force_single_connection_idempotent _ _ H).
Defined.

Section ReadThenBuild.

Variable parse_size : value -> result Z.
Variable resolve_path : string -> string.
Variable abspath_other : value -> result value.

Local Abbreviation read_config :=
  (read_config parse_size resolve_path abspath_other).

(** The arguments [read_config] leaves for sqlite3 are a dictionary in
    single-connection mode. *)
Lemma read_config_sqlite3_single cfg self d :
  read_config cfg = ok self →
  database_config self = VDict d →
  d !! "name" = Some (VStr "sqlite3") →
  ∃ a, d !! "args" = Some (VDict a) ∧ single_connection a.
Proof.
  unfold read_config. intros H Hd Hn.
  destruct (get cfg "event_cache_size" (VStr "10K")) as [|ev]; [discriminate|].
  simpl in H. destruct (parse_size ev) as [|size]; [discriminate|].
  simpl in H. destruct (get cfg "database" VNone) as [|c0]; [discriminate|].
  simpl in H.
  set (c := if is_None c0 then VDict default_database_config else c0) in H.
  destruct c as [| | | | | |d0] eqn:Hc; try discriminate.
  simpl in H.
  destruct (py_eq_str (default VNone (d0 !! "name")) "psycopg2") eqn:Hpg.
  - simpl in H.
    destruct (get cfg "database_path" VNone) as [|path]; [discriminate|].
    simpl in H. apply py_eq_str_spec in Hpg.
    assert (Hns : py_eq_str (default VNone (d0 !! "name")) "sqlite3" = false)
      by (by rewrite Hpg).
    unfold set_databasepath in H. simpl in H.
    destruct (if negb (py_eq_str path ":memory:") then _ else _);
      [discriminate|].
    simpl in H. rewrite Hns in H. inversion H; subst. simpl in Hd.
    inversion Hd; subst. rewrite Hn in Hpg. discriminate.
  - destruct (py_eq_str (default VNone (d0 !! "name")) "sqlite3") eqn:Hsq;
      [|discriminate].
    destruct (force_single_connection (VDict d0)) as [|c1] eqn:Hf;
      [discriminate|].
    assert (Ha0 : args_absent_or_dict d0 = true).
    { unfold force_single_connection, args_absent_or_dict in *. simpl in Hf.
      by destruct (d0 !! "args") as [[]|]. }
    rewrite force_single_connection_dict in Hf by done.
    inversion Hf; subst c1. clear Hf.
    simpl in H.
    destruct (get cfg "database_path" VNone) as [|path]; [discriminate|].
    simpl in H.
    eapply set_databasepath_args in H as (a' & Hd' & Ha');
      [|done|apply lookup_insert_eq].
    rewrite insert_insert_eq in Hd'. rewrite Hd in Hd'.
    inversion Hd'; subst d.
    exists a'. split; [apply lookup_insert_eq|].
    destruct Ha' as [->|[v ->]]; [apply forced_single_connection|].
    apply single_connection_insert; [|apply forced_single_connection].
    by apply other_not_forced.
Qed.

(** X5: every sqlite3 configuration that read_config returns is accepted by
    the constructor, whose second normalization changes nothing: the object
    holds the arguments read_config left, with cp_openfun bound to the hook
    of the sqlite3 engine. *)
Theorem read_config_result_builds cfg self d nm ds :
  read_config cfg = ok self →
  database_config self = VDict d →
  d !! "name" = Some (VStr "sqlite3") →
  ∃ obj,
    __init__ nm (database_config self) ds = ok obj
    ∧ engine_of obj = Sqlite3Engine
    ∧ args_of (config obj)
      = <["cp_openfun" := VMethod Sqlite3Engine]>
          (args_of (database_config self))
    ∧ single_connection (args_of (config obj)).
Proof.
  intros H Hd Hn.
  destruct (read_config_sqlite3_single cfg self d H Hd Hn) as (a & Ha & Hs).
  rewrite Hd. exists (built nm d ds Sqlite3Engine).
  split; [apply init_built; [done|by unfold args_usable; rewrite Ha]|].
  split; [done|].
  assert (Hargs : args_of (VDict d) = a) by (unfold args_of; by rewrite Ha).
  rewrite args_of_built. unfold normalized_args.
  rewrite Hargs, (forced_absorbed a Hs).
  split; [done|].
  apply single_connection_insert; [by apply other_not_forced|done].
Qed.

End ReadThenBuild.

Lemma read_config_result_builds_witness :
  read_config Sample.parse_size Sample.resolve_path Sample.abspath_other
    (VDict {[ "database" := VDict Sample.sqlite_5_5 ]})
  = ok sample_database_config
  ∧ ∃ obj,
      __init__ "master" (database_config sample_database_config) [] = ok obj
      ∧ args_of (config obj) !! "cp_max" = Some (VInt 1)
      ∧ args_of (config obj) !! "database" = Some (VStr "homeserver.db").
Proof.
  assert (H : read_config Sample.parse_size Sample.resolve_path
                Sample.abspath_other
                (VDict {[ "database" := VDict Sample.sqlite_5_5 ]})
              = ok sample_database_config) by (vm_compute; reflexivity).
  split; [exact H|].
  destruct (read_config_result_builds
              Sample.parse_size Sample.resolve_path Sample.abspath_other
              _ _ _ "master" [] H eq_refl eq_refl)
    as (obj & Hi & _ & Ha & _).
  exists obj. split; [exact Hi|].
  rewrite Ha. split; reflexivity.
Defined.

(** ** The pool constructor call *)

Section PoolCall.

Variable ConnectionPool_raises : nat -> pool_call -> option exn.

Local Abbreviation get_pool := (get_pool ConnectionPool_raises).

(** X6: when the arguments of the configuration hold the key cp_reactor,
    every call of get_pool raises TypeError (the keyword is given twice in
    the call of lines 63-65) before the pool constructor is reached: no pool
    is ever built for such an object, whose pool stays None. *)
Theorem cp_reactor_in_args_breaks_get_pool nm d ds self :
  __init__ nm (VDict d) ds = ok self →
  is_Some (args_of (VDict d) !! "cp_reactor") →
  ∀ r w, get_pool self r w = (raise TypeError, self, w).
Proof.
  intros H Hr r w.
  apply init_inv in H as (d' & e & [= <-] & Hn & Ha & ->).
  unfold get_pool, pool_arguments. simpl _pool. cbv iota.
  rewrite built_name, built_args by done.
  remember (args_of (config (built nm d ds e))) as a eqn:Ea. simpl.
  rewrite bool_decide_eq_true_2; [done|].
  subst a. rewrite args_of_built, lookup_insert_ne by done.
  destruct Hr as [v Hr]. destruct e; simpl.
  - exists v. rewrite forced_other; [done|by apply other_not_forced].
  - by exists v.
Qed.

(** X7: the pool of an sqlite3 configuration is always built in
    single-connection mode: whatever args the caller supplied, the pool
    constructor is called with the driver name sqlite3, the reactor of the
    call, cp_min 1, cp_max 1, check_same_thread False and the hook of the
    sqlite3 engine under cp_openfun. *)
Theorem sqlite3_pool_is_single_connection nm db_config ds self :
  __init__ nm db_config ds = ok self →
  engine_of self = Sqlite3Engine →
  ∀ r w p self' w',
    get_pool self r w = (ok p, self', w') →
    dbapiName (pool_built_by p) = VStr "sqlite3"
    ∧ cp_reactor (pool_built_by p) = r
    ∧ single_connection (connkw (pool_built_by p))
    ∧ connkw (pool_built_by p) !! "cp_openfun" = Some (VMethod Sqlite3Engine)
    ∧ w' = w ++ [EvConnectionPool (pool_built_by p) None].
Proof.
  intros H He r w p self' w' Hg.
  apply init_inv in H as (d & e & -> & Hn & Ha & ->).
  simpl in He. subst e.
  pose proof (get_pool_built_ok _ _ _ _ _ _ _ _ _ _ Hn Hg) as ->.
  apply get_pool_ok in Hg as (_ & _ & _ & [(Hq & _)|(_ & c & Hc & Hp & ->)]);
    [discriminate|].
  inversion Hp; subst c.
  unfold pool_call_of. cbn [pool_built_by dbapiName cp_reactor connkw engine_of built].
  rewrite args_of_built. cbn [normalized_args].
  split; [done|]. split; [done|].
  split.
  { apply single_connection_insert; [by apply other_not_forced|].
    apply forced_single_connection. }
  split; [apply lookup_insert_eq|done].
Qed.

End PoolCall.

Lemma cp_reactor_in_args_breaks_get_pool_witness :
  ∃ self,
    __init__ "master" (VDict sample_reactor_clash) [] = ok self
    ∧ is_Some (args_of (VDict sample_reactor_clash) !! "cp_reactor")
    ∧ get_pool Sample.pool_up self 7 [] = (raise TypeError, self, []).
Proof.
  assert (H : __init__ "master" (VDict sample_reactor_clash) []
              = ok (built "master" sample_reactor_clash [] Sqlite3Engine))
    by (vm_compute; reflexivity).
  assert (Hr : is_Some (args_of (VDict sample_reactor_clash) !! "cp_reactor"))
    by (exists (VInt 3); reflexivity).
  eexists. split; [exact H|]. split; [exact Hr|].
  exact (cp_reactor_in_args_breaks_get_pool Sample.pool_up _ _ _ _ H Hr 7 []).
Defined.

Lemma sqlite3_pool_is_single_connection_witness :
  __init__ "master" (VDict Sample.sqlite_5_5) [] = ok sample_master
  ∧ engine_of sample_master = Sqlite3Engine
  ∧ ∃ p self' w',
      get_pool Sample.pool_up sample_master 7 [] = (ok p, self', w')
      ∧ connkw (pool_built_by p) !! "cp_max" = Some (VInt 1).
Proof.
  split; [exact sample_master_built|]. split; [reflexivity|].
  eexists _, _, _. split; [reflexivity|].
  destruct (sqlite3_pool_is_single_connection Sample.pool_up _ _ _ _
              sample_master_built eq_refl 7 [] _ _ _ eq_refl)
    as (_ & _ & (_ & H & _) & _).
  exact H.
Defined.

(** ** Reading the database section *)

Section ReadingFacts.

Variable parse_size : value -> result Z.
Variable resolve_path : string -> string.
Variable abspath_other : value -> result value.

Local Abbreviation set_databasepath :=
  (set_databasepath resolve_path abspath_other).
Local Abbreviation read_arguments :=
  (read_arguments resolve_path abspath_other).
Local Abbreviation read_config :=
  (read_config parse_size resolve_path abspath_other).
Local Abbreviation stored_path := (stored_path resolve_path).

(** X8: on the sqlite3 configuration that read_config returned,
    read_arguments with a path given on the command line replaces whatever
    database path the configuration held by that path (resolved, or
    :memory: as it is) and touches nothing else; given again with another
    path, the later path wins; with no path on the command line the
    configuration stays as read. *)
Theorem command_line_path_wins cfg self d :
  read_config cfg = ok self →
  database_config self = VDict d →
  d !! "name" = Some (VStr "sqlite3") →
  (∀ p, ∃ self',
     read_arguments self (VStr p) = ok self'
     ∧ event_cache_size self' = event_cache_size self
     ∧ database_config self'
       = VDict (<["args" := VDict (<["database" := VStr (stored_path p)]>
                                     (args_of (database_config self)))]> d)
     ∧ args_of (database_config self') !! "database"
       = Some (VStr (stored_path p))
     ∧ (∀ k, k ≠ "database" →
             args_of (database_config self') !! k
             = args_of (database_config self) !! k)
     ∧ ∀ q, read_arguments self' (VStr q) = read_arguments self (VStr q))
  ∧ read_arguments self VNone = ok self.
Proof.
  intros H Hd Hn.
  destruct (read_config_sqlite3_single _ _ _ cfg self d H Hd Hn) as (a & Ha & _).
  assert (Hargs : args_of (database_config self) = a).
  { rewrite Hd. unfold args_of. by rewrite Ha. }
  split; [|by apply set_databasepath_None with (d := d)].
  intros p. eexists. unfold read_arguments.
  split; [by apply (set_databasepath_sqlite3 _ _ self d a p)|].
  cbn [event_cache_size database_config]. rewrite Hargs.
  split; [done|]. split; [done|].
  rewrite args_of_insert.
  split; [apply lookup_insert_eq|].
  split; [intros k Hk; by rewrite lookup_insert_ne|].
  intros q.
  rewrite (set_databasepath_sqlite3 _ _ self d a q) by done.
  rewrite (set_databasepath_sqlite3 _ _ _
             (<["args" := VDict (<["database" := VStr (stored_path p)]> a)]> d)
             (<["database" := VStr (stored_path p)]> a) q);
    [|done|by rewrite lookup_insert_ne|apply lookup_insert_eq].
  cbn [event_cache_size]. by rewrite !insert_insert_eq.
Qed.

(** X9: read_config leaves a psycopg2 database block exactly as the
    configuration gives it: nothing is forced into its args, and a
    database_path in the configuration is ignored. *)
Theorem postgres_block_is_left_as_is cfg d size :
  cfg !! "database" = Some (VDict d) →
  d !! "name" = Some (VStr "psycopg2") →
  parse_size (default (VStr "10K") (cfg !! "event_cache_size")) = ok size →
  (default VNone (cfg !! "database_path") = VNone
   ∨ ∃ p, cfg !! "database_path" = Some (VStr p)) →
  read_config (VDict cfg)
  = ok {| event_cache_size := size; database_config := VDict d |}.
Proof.
  intros Hd Hn Hs Hp.
  rewrite (read_config_database _ _ _ cfg d size Hd Hs), Hn. simpl.
  destruct Hp as [->|[p ->]].
  - by apply set_databasepath_None with (d := d).
  - apply set_databasepath_not_sqlite3 with (d := d); [done|].
    by rewrite Hn.
Qed.

(** X10: how read_config fails.  An exception of parse_size is raised
    before the database block is looked at; a configuration or a database
    block that is not a dictionary (and not None) raises AttributeError, and
    so does an sqlite3 block whose args is not a dictionary. *)
Theorem read_config_failures :
  (∀ cfg e,
     parse_size (default (VStr "10K") (cfg !! "event_cache_size")) = raise e →
     read_config (VDict cfg) = raise e)
  ∧ (∀ v, (∀ d, v ≠ VDict d) → read_config v = raise AttributeError)
  ∧ (∀ cfg size v,
       parse_size (default (VStr "10K") (cfg !! "event_cache_size")) = ok size →
       cfg !! "database" = Some v →
       v ≠ VNone → (∀ d, v ≠ VDict d) →
       read_config (VDict cfg) = raise AttributeError)
  ∧ (∀ cfg size d a,
       parse_size (default (VStr "10K") (cfg !! "event_cache_size")) = ok size →
       cfg !! "database" = Some (VDict d) →
       d !! "name" = Some (VStr "sqlite3") →
       d !! "args" = Some a → (∀ x, a ≠ VDict x) →
       read_config (VDict cfg) = raise AttributeError).
Proof.
  split; [|split; [|split]].
  - intros cfg e He. unfold read_config. simpl. by rewrite He.
  - intros v Hv. destruct v; try done. by destruct (Hv d).
  - intros cfg size v Hs Hd Hnn Hv. unfold read_config. simpl.
    rewrite Hs. simpl. rewrite Hd. simpl.
    destruct v; try done. by destruct (Hv d).
  - intros cfg size d a Hs Hd Hn Ha Hx.
    rewrite (read_config_database _ _ _ cfg d size Hd Hs), Hn. simpl.
    unfold force_single_connection. simpl. rewrite Ha. simpl.
    destruct a; try done. by destruct (Hx d0).
Qed.

End ReadingFacts.

Lemma command_line_path_wins_witness :
  read_config Sample.parse_size Sample.resolve_path Sample.abspath_other
    (VDict {[ "database" := VDict Sample.sqlite_5_5 ]})
  = ok sample_database_config
  ∧ ∃ self',
      read_arguments Sample.resolve_path Sample.abspath_other
        sample_database_config (VStr "/data/synapse.db") = ok self'
      ∧ args_of (database_config self') !! "database"
        = Some (VStr "/data/synapse.db").
Proof.
  assert (H : read_config Sample.parse_size Sample.resolve_path
                Sample.abspath_other
                (VDict {[ "database" := VDict Sample.sqlite_5_5 ]})
              = ok sample_database_config) by (vm_compute; reflexivity).
  split; [exact H|].
  destruct (command_line_path_wins
              Sample.parse_size Sample.resolve_path Sample.abspath_other
              _ _ _ H eq_refl eq_refl) as [Hp _].
  destruct (Hp "/data/synapse.db") as (self' & H1 & _ & _ & H2 & _).
  exists self'. split; [exact H1|exact H2].
Defined.

Lemma postgres_block_is_left_as_is_witness :
  read_config Sample.parse_size Sample.resolve_path Sample.abspath_other
    (VDict {[ "database" := VDict Sample.postgres_5_10;
              "database_path" := VStr "homeserver.db" ]})
  = ok {| event_cache_size := 10240;
          database_config := VDict Sample.postgres_5_10 |}.
Proof.
  apply (postgres_block_is_left_as_is
           Sample.parse_size Sample.resolve_path Sample.abspath_other
           {[ "database" := VDict Sample.postgres_5_10;
              "database_path" := VStr "homeserver.db" ]}
           Sample.postgres_5_10 10240%Z);
    [reflexivity|reflexivity|reflexivity|].
  right. exists "homeserver.db". reflexivity.
Defined.

Lemma read_config_failures_witness :
  read_config Sample.parse_size Sample.resolve_path Sample.abspath_other
    (VDict {[ "event_cache_size" := VStr "10X";
              "database" := VDict {[ "name" := VStr "mysql" ]} ]})
  = raise (ConfigError (VStr "10X"))
  ∧ read_config Sample.parse_size Sample.resolve_path Sample.abspath_other
      (VDict {[ "database" := VStr "sqlite3" ]})
    = raise AttributeError.
Proof.
  destruct (read_config_failures
              Sample.parse_size Sample.resolve_path Sample.abspath_other)
    as (H1 & _ & H2 & _).
  split.
  - apply H1. reflexivity.
  - apply (H2 _ 10240%Z (VStr "sqlite3"));
      [reflexivity|reflexivity|discriminate|discriminate].
Defined.

(** ** From the configuration to the driver *)

Lemma bare_params_of_default (path : value) :
  without_cp (<["cp_openfun" := VMethod Sqlite3Engine]>
                (sqlite3_forced ∪ <["database" := path]> sqlite3_forced))
  = {[ "database" := path; "check_same_thread" := VBool false ]}.
Proof.
  apply map_eq. intros k. rewrite without_cp_lookup.
  destruct (decide (k = "database")) as [->|Nd].
  { simpl. rewrite lookup_insert_ne by done.
    rewrite forced_other by (by apply other_not_forced).
    by rewrite !lookup_insert_eq. }
  destruct (decide (k = "check_same_thread")) as [->|Nc].
  { simpl. rewrite lookup_insert_ne by done.
    rewrite (lookup_insert_ne _ "database" "check_same_thread") by done.
    rewrite lookup_singleton_eq.
    by apply lookup_union_Some_l. }
  rewrite (lookup_insert_ne _ "database" k) by done.
  rewrite lookup_singleton_ne by done.
  destruct (startswith k "cp_") eqn:E; [done|].
  assert (k ≠ "cp_openfun") by (by intros ->).
  assert (k ≠ "cp_min") by (by intros ->).
  assert (k ≠ "cp_max") by (by intros ->).
  rewrite lookup_insert_ne by done.
  rewrite forced_other by (by apply other_not_forced).
  rewrite lookup_insert_ne by done.
  unfold sqlite3_forced.
  by rewrite !lookup_insert_ne, lookup_singleton_ne.
Qed.

Section ConfigurationToDriver.

Variable parse_size : value -> result Z.
Variable resolve_path : string -> string.
Variable abspath_other : value -> result value.
Variable connect_raises : nat -> string -> gmap string value -> option exn.

Local Abbreviation read_config :=
  (read_config parse_size resolve_path abspath_other).
Local Abbreviation stored_path := (stored_path resolve_path).
Local Abbreviation make_conn := (make_conn connect_raises).
Local Abbreviation connect := (connect connect_raises).

Lemma read_config_default cfg size :
  default VNone (cfg !! "database") = VNone →
  parse_size (default (VStr "10K") (cfg !! "event_cache_size")) = ok size →
  read_config (VDict cfg)
  = set_databasepath resolve_path abspath_other
      {| event_cache_size := size;
         database_config :=
           VDict (<["args" := VDict sqlite3_forced]> default_database_config) |}
      (default VNone (cfg !! "database_path")).
Proof.
  intros Hd Hs. unfold read_config. simpl.
  rewrite Hs, Hd. simpl. by rewrite default_database_config_forced.
Qed.

(** X11: from the configuration file to the driver.  With no database block
    and the database path [p], the object built from what read_config
    returns opens its bare connections by calling the connect of sqlite3
    with exactly two parameters: database, the path resolved (or :memory:
    as it is), and check_same_thread, False. *)
Theorem default_database_bare_connection cfg size p nm ds :
  default VNone (cfg !! "database") = VNone →
  parse_size (default (VStr "10K") (cfg !! "event_cache_size")) = ok size →
  cfg !! "database_path" = Some (VStr p) →
  ∃ self obj,
    read_config (VDict cfg) = ok self
    ∧ __init__ nm (database_config self) ds = ok obj
    ∧ ∀ w, make_conn obj w
           = connect "sqlite3"
               {[ "database" := VStr (stored_path p);
                  "check_same_thread" := VBool false ]} w.
Proof.
  intros Hd Hs Hp.
  set (d := <["args" := VDict (<["database" := VStr (stored_path p)]>
                                  sqlite3_forced)]> default_database_config).
  exists {| event_cache_size := size; database_config := VDict d |},
         (built nm d ds Sqlite3Engine).
  split.
  { rewrite (read_config_default cfg size Hd Hs), Hp. simpl default.
    rewrite (set_databasepath_sqlite3 _ _ _
               (<["args" := VDict sqlite3_forced]> default_database_config)
               sqlite3_forced p); [|done..].
    unfold d. by rewrite insert_insert_eq. }
  split.
  { apply init_built; [done|]. unfold args_usable, d.
    by rewrite lookup_insert_eq. }
  intros w. unfold make_conn. rewrite built_db_params, args_of_built.
  cbn [normalized_args engine_of built engine_module].
  unfold d at 1. rewrite args_of_insert.
  by rewrite bare_params_of_default.
Qed.

End ConfigurationToDriver.

Lemma default_database_bare_connection_witness :
  ∃ self obj,
    read_config Sample.parse_size Sample.resolve_path Sample.abspath_other
      (VDict {[ "database_path" := VStr ":memory:" ]}) = ok self
    ∧ __init__ "master" (database_config self) [] = ok obj
    ∧ make_conn Sample.driver_up obj []
      = connect Sample.driver_up "sqlite3"
          {[ "database" := VStr ":memory:";
             "check_same_thread" := VBool false ]} [].
Proof.
  pose (cfg := {[ "database_path" := VStr ":memory:" ]} : gmap string value).
  assert (Hd : default VNone (cfg !! "database") = VNone) by reflexivity.
  assert (Hs : Sample.parse_size
                 (default (VStr "10K") (cfg !! "event_cache_size"))
               = ok 10240%Z) by reflexivity.
  assert (Hp : cfg !! "database_path" = Some (VStr ":memory:"))
    by reflexivity.
  destruct (default_database_bare_connection
              Sample.parse_size Sample.resolve_path Sample.abspath_other
              Sample.driver_up cfg 10240%Z ":memory:" "master" [] Hd Hs Hp)
    as (self & obj & H1 & H2 & H3).
  exists self, obj. split; [exact H1|]. split; [exact H2|]. apply H3.
Defined.

(** ** Overlapping calls, whatever the schedule *)

Lemma pending_insert calls i c c' :
  calls !! i = Some c →
  pending (<[i := c']> calls) + (if is_pending c then 1 else 0)
  = pending calls + (if is_pending c' then 1 else 0).
Proof.
  intros Hi. pose proof (lookup_lt_Some _ _ _ Hi) as Hlt.
  rewrite <-(take_drop_middle calls i c Hi) at 2.
  rewrite (insert_take_drop calls i c' Hlt).
  unfold pending. rewrite !List.filter_app. simpl.
  destruct (is_pending c), (is_pending c'); rewrite !length_app; simpl; lia.
Qed.

Lemma pending_calls_of reactors : pending (calls_of reactors) = length reactors.
Proof.
  unfold pending, calls_of. induction reactors as [|r rs IH]; simpl; [done|].
  by rewrite IH.
Qed.

Section AnySchedule.

Variable ConnectionPool_raises : nat -> pool_call -> option exn.

Local Abbreviation step := (step ConnectionPool_raises).
Local Abbreviation run := (run ConnectionPool_raises).

(** One statement of one call never clears the pool of the object, keeps
    [returns_a_pool], and builds a pool only for a call that was pending and
    no longer is. *)
Lemma step_invariants i s :
  returns_a_pool s →
  returns_a_pool (step i s)
  ∧ (is_Some (_pool (sys_self s)) → is_Some (_pool (sys_self (step i s))))
  ∧ pools_built (sys_world (step i s)) + pending (sys_calls (step i s))
    ≤ pools_built (sys_world s) + pending (sys_calls s).
Proof.
  intros Hinv. destruct s as [self w calls].
  destruct (calls !! i) as [[r pc]|] eqn:Hi.
  2:{ rewrite step_missing by done. repeat split; [done|done|lia]. }
  assert (Hother : ∀ self' w' c',
             (is_Some (_pool self) → is_Some (_pool self')) →
             match call_pc c' with
             | AtReturn => is_Some (_pool self')
             | Returned (inr o) => is_Some o
             | _ => True
             end →
             returns_a_pool (MkSystem self' w' (<[i := c']> calls))).
  { intros self' w' c' Hmono Hc' j c Hj. simpl in *.
    apply list_lookup_insert_Some in Hj as [(_ & <- & _)|(_ & Hj)]; [done|].
    specialize (Hinv j c Hj). simpl in Hinv.
    destruct (call_pc c) as [| | |[|]]; auto. }
  destruct pc as [| | |x].
  - rewrite (step_test _ i self w calls r Hi). cbn [sys_self sys_world sys_calls].
    pose proof (pending_insert calls i _
                  (MkCall r (match _pool self with
                             | None => AtBuild | Some _ => AtReturn end)) Hi) as Hp.
    simpl in Hp.
    split; [|split; [done|]].
    + apply Hother; [done|]. simpl. by destruct (_pool self).
    + destruct (_pool self); simpl in Hp; lia.
  - rewrite (step_build _ i self w calls r Hi).
    destruct (pool_arguments self r) as [e|a].
    + pose proof (pending_insert calls i _ (MkCall r (Returned (raise e))) Hi) as Hp.
      simpl in Hp. cbn [sys_self sys_world sys_calls].
      split; [by apply Hother|]. split; [done|lia].
    + destruct (ConnectionPool_raises (length w) a) as [e|].
      * pose proof (pending_insert calls i _ (MkCall r (Returned (raise e))) Hi) as Hp.
        simpl in Hp. cbn [sys_self sys_world sys_calls].
        rewrite pools_built_snoc.
        split; [by apply Hother|]. split; [done|lia].
      * pose proof (pending_insert calls i _ (MkCall r AtReturn) Hi) as Hp.
        simpl in Hp. cbn [sys_self sys_world sys_calls].
        rewrite pools_built_snoc.
        split; [apply Hother; simpl; by eauto|]. split; [simpl; by eauto|lia].
  - rewrite (step_return _ i self w calls r Hi). cbn [sys_self sys_world sys_calls].
    pose proof (pending_insert calls i _
                  (MkCall r (Returned (ok (_pool self)))) Hi) as Hp.
    simpl in Hp.
    split; [|split; [done|lia]].
    apply Hother; [done|]. simpl. exact (Hinv i _ Hi).
  - rewrite (step_returned _ i (MkSystem self w calls) r x Hi).
    repeat split; [done|done|lia].
Qed.

Lemma run_invariants schedule s :
  returns_a_pool s →
  returns_a_pool (run schedule s)
  ∧ (is_Some (_pool (sys_self s)) →
     is_Some (_pool (sys_self (run schedule s))))
  ∧ pools_built (sys_world (run schedule s))
    + pending (sys_calls (run schedule s))
    ≤ pools_built (sys_world s) + pending (sys_calls s).
Proof.
  revert s. induction schedule as [|i schedule IH]; intros s Hinv; simpl.
  - repeat split; [done|done|lia].
  - destruct (step_invariants i s Hinv) as (H1 & H2 & H3).
    destruct (IH _ H1) as (H1' & H2' & H3').
    split; [done|]. split; [auto|]. simpl in *. lia.
Qed.

Lemma calls_of_return_a_pool self w reactors :
  returns_a_pool (MkSystem self w (calls_of reactors)).
Proof.
  intros i c Hi. unfold calls_of in Hi. simpl in Hi.
  rewrite list_lookup_fmap in Hi.
  destruct (reactors !! i); simpl in Hi; [|discriminate]. by inversion Hi.
Qed.

(** X12: however the calls of get_pool on an object overlap, a call that
    returns normally returns a pool, never None, and a pool the object holds
    is never cleared (it can only be replaced by another pool). *)
Theorem get_pool_never_returns_None self w reactors schedule :
  (∀ i o,
     returned (run schedule (MkSystem self w (calls_of reactors))) i
     = Some (ok o) →
     is_Some o)
  ∧ (is_Some (_pool self) →
     is_Some (_pool (sys_self (run schedule
                                 (MkSystem self w (calls_of reactors)))))).
Proof.
  destruct (run_invariants schedule _ (calls_of_return_a_pool self w reactors))
    as (H1 & H2 & _).
  split; [|exact H2].
  intros i o Hr. unfold returned in Hr.
  destruct (sys_calls _ !! i) as [[r pc]|] eqn:Hi; [|discriminate].
  specialize (H1 i _ Hi). simpl in H1.
  destruct pc as [| | |[|]]; try discriminate.
  inversion Hr; by subst.
Qed.

(** X13: however the calls overlap, each call builds at most one pool: the
    number of pools built by n calls of get_pool is at most n.  (The two
    overlapping calls of [sample_race] reach the bound.) *)
Theorem overlapping_calls_build_at_most_one_pool_each self w reactors schedule :
  pools_built (sys_world (run schedule (MkSystem self w (calls_of reactors))))
  ≤ pools_built w + length reactors.
Proof.
  destruct (run_invariants schedule _ (calls_of_return_a_pool self w reactors))
    as (_ & _ & H).
  simpl in H. rewrite pending_calls_of in H. lia.
Qed.

(** A system whose object holds the pool [p] and whose calls are served by
    [p] stays so, with the same object and the same history. *)
Lemma run_served_by self p w schedule calls :
  _pool self = Some p →
  served_by p calls →
  ∃ calls',
    run schedule (MkSystem self w calls) = MkSystem self w calls'
    ∧ served_by p calls'
    ∧ length calls' = length calls.
Proof.
  intros Hp. revert calls.
  induction schedule as [|i schedule IH]; intros calls Hs; simpl.
  { by exists calls. }
  assert (Hstep : ∃ calls1,
             step i (MkSystem self w calls) = MkSystem self w calls1
             ∧ served_by p calls1 ∧ length calls1 = length calls).
  { destruct (calls !! i) as [[r pc]|] eqn:Hi.
    2:{ exists calls. by rewrite step_missing. }
    assert (Hins : ∀ c', (call_pc c' = AtTest ∨ call_pc c' = AtReturn
                          ∨ call_pc c' = Returned (ok (Some p))) →
                         served_by p (<[i := c']> calls)).
    { intros c' Hc' j c Hj.
      apply list_lookup_insert_Some in Hj as [(_ & <- & _)|(_ & Hj)]; [done|].
      by apply (Hs j). }
    destruct (Hs i _ Hi) as [Hpc|[Hpc|Hpc]]; simpl in Hpc; subst pc.
    - rewrite (step_test _ i self w calls r Hi), Hp.
      eexists. split; [done|]. split; [apply Hins; simpl; auto|].
      apply length_insert.
    - rewrite (step_return _ i self w calls r Hi), Hp.
      eexists. split; [done|]. split; [apply Hins; simpl; auto|].
      apply length_insert.
    - rewrite (step_returned _ i (MkSystem self w calls) r _ Hi).
      by exists calls. }
  destruct Hstep as (calls1 & -> & Hs1 & Hl1).
  destruct (IH calls1 Hs1) as (calls' & -> & Hs' & Hl').
  exists calls'. split; [done|]. split; [done|]. by rewrite Hl', Hl1.
Qed.

(** X14: once the object holds a pool, calls of get_pool may overlap in any
    way: no pool is built, the pool constructor is not called, the object is
    left as it is, and every call that returns returns the pool held. *)
Theorem stored_pool_serves_any_schedule self p w reactors schedule :
  _pool self = Some p →
  sys_self (run schedule (MkSystem self w (calls_of reactors))) = self
  ∧ sys_world (run schedule (MkSystem self w (calls_of reactors))) = w
  ∧ ∀ i x,
      returned (run schedule (MkSystem self w (calls_of reactors))) i = Some x →
      x = ok (Some p).
Proof.
  intros Hp.
  assert (Hs : served_by p (calls_of reactors)).
  { intros i c Hi. left. unfold calls_of in Hi.
    rewrite list_lookup_fmap in Hi.
    destruct (reactors !! i); simpl in Hi; [|discriminate]. by inversion Hi. }
  destruct (run_served_by self p w schedule _ Hp Hs) as (calls' & -> & Hs' & _).
  split; [done|]. split; [done|].
  intros i x Hr. unfold returned in Hr. simpl in Hr.
  destruct (calls' !! i) as [[r pc]|] eqn:Hi; [|discriminate].
  destruct (Hs' i _ Hi) as [Hpc|[Hpc|Hpc]]; simpl in Hpc; subst pc;
    try discriminate.
  by inversion Hr.
Qed.

End AnySchedule.

Lemma stored_pool_serves_any_schedule_witness :
  _pool (with_pool sample_master (Some (MkPool 0 (pool_call_of sample_master 7))))
  = Some (MkPool 0 (pool_call_of sample_master 7))
  ∧ pools_built
      (sys_world
         (run Sample.pool_up [0; 1; 0; 0; 1; 1]
            (MkSystem
               (with_pool sample_master
                  (Some (MkPool 0 (pool_call_of sample_master 7))))
               [EvConnectionPool (pool_call_of sample_master 7) None]
               (calls_of [8; 9]))))
    = 1.
Proof.
  split; [reflexivity|].
  rewrite (proj1 (proj2 (stored_pool_serves_any_schedule Sample.pool_up
                           (with_pool sample_master
                              (Some (MkPool 0 (pool_call_of sample_master 7))))
                           (MkPool 0 (pool_call_of sample_master 7))
                           [EvConnectionPool (pool_call_of sample_master 7) None]
                           [8; 9] [0; 1; 0; 0; 1; 1] eq_refl))).
  reflexivity.
Defined.
